(** * AirDB update-manifest generator: a shallow embedding of
    [scripts/generate_manifest.py] and the properties of its manifest.

    The definitions come in the order the script depends on them: the
    hash object behind [hashlib.sha256], [calculate_sha256], the directory
    walk behind [Path.glob], [find_artifacts], [generate_manifest], the
    argument parser and [main].  The clock and the file system are
    arguments of the functions that read them; a function that can raise
    returns a [result]. *)

From Stdlib Require Import ZArith List String Ascii Bool Lia Arith.
From Stdlib Require Import Strings.Byte DecimalString.
Import ListNotations.

Local Open Scope Z_scope.
Set Warnings "-register-all".
Set Warnings "-abstract-large-number".

(* ================================================================== *)
(** ** SHA-256 (FIPS 180-4) on 32-bit words kept as [Z] *)
(* ================================================================== *)

Module SHA256.

Definition wrap (x : Z) : Z := x mod 2 ^ 32.
Definition add32 (x y : Z) : Z := wrap (x + y).
Definition not32 (x : Z) : Z := Z.lxor x 0xFFFFFFFF.
Definition rotr (n x : Z) : Z :=
  Z.lor (Z.shiftr x n) (wrap (Z.shiftl x (32 - n))).
Definition shr (n x : Z) : Z := Z.shiftr x n.

Definition Ch (x y z : Z) : Z := Z.lxor (Z.land x y) (Z.land (not32 x) z).
Definition Maj (x y z : Z) : Z :=
  Z.lxor (Z.lxor (Z.land x y) (Z.land x z)) (Z.land y z).
Definition bsig0 (x : Z) : Z := Z.lxor (Z.lxor (rotr 2 x) (rotr 13 x)) (rotr 22 x).
Definition bsig1 (x : Z) : Z := Z.lxor (Z.lxor (rotr 6 x) (rotr 11 x)) (rotr 25 x).
Definition ssig0 (x : Z) : Z := Z.lxor (Z.lxor (rotr 7 x) (rotr 18 x)) (shr 3 x).
Definition ssig1 (x : Z) : Z := Z.lxor (Z.lxor (rotr 17 x) (rotr 19 x)) (shr 10 x).

(** Round constants, four to a line. *)
Definition K : list Z :=
  [ 0x428A2F98; 0x71374491; 0xB5C0FBCF; 0xE9B5DBA5;
    0x3956C25B; 0x59F111F1; 0x923F82A4; 0xAB1C5ED5;
    0xD807AA98; 0x12835B01; 0x243185BE; 0x550C7DC3;
    0x72BE5D74; 0x80DEB1FE; 0x9BDC06A7; 0xC19BF174;
    0xE49B69C1; 0xEFBE4786; 0x0FC19DC6; 0x240CA1CC;
    0x2DE92C6F; 0x4A7484AA; 0x5CB0A9DC; 0x76F988DA;
    0x983E5152; 0xA831C66D; 0xB00327C8; 0xBF597FC7;
    0xC6E00BF3; 0xD5A79147; 0x06CA6351; 0x14292967;
    0x27B70A85; 0x2E1B2138; 0x4D2C6DFC; 0x53380D13;
    0x650A7354; 0x766A0ABB; 0x81C2C92E; 0x92722C85;
    0xA2BFE8A1; 0xA81A664B; 0xC24B8B70; 0xC76C51A3;
    0xD192E819; 0xD6990624; 0xF40E3585; 0x106AA070;
    0x19A4C116; 0x1E376C08; 0x2748774C; 0x34B0BCB5;
    0x391C0CB3; 0x4ED8AA4A; 0x5B9CCA4F; 0x682E6FF3;
    0x748F82EE; 0x78A5636F; 0x84C87814; 0x8CC70208;
    0x90BEFFFA; 0xA4506CEB; 0xBEF9A3F7; 0xC67178F2 ].

(** The eight working registers / chaining value. *)
Record regs : Type := Regs {
  ra : Z; rb : Z; rc : Z; rd : Z; re : Z; rf : Z; rg : Z; rh : Z }.

Definition init_regs : regs :=
  Regs 0x6A09E667 0xBB67AE85 0x3C6EF372 0xA54FF53A
       0x510E527F 0x9B05688C 0x1F83D9AB 0x5BE0CD19.

Definition byteZ (b : byte) : Z := Z.of_N (Byte.to_N b).

(** Big-endian 32-bit words of a block. *)
Fixpoint words_of (n : nat) (bs : list byte) : list Z :=
  match n with
  | O => []
  | S n' =>
      match bs with
      | b0 :: b1 :: b2 :: b3 :: rest =>
          (byteZ b0 * 16777216 + byteZ b1 * 65536 + byteZ b2 * 256 + byteZ b3)
            :: words_of n' rest
      | _ => 0 :: words_of n' []
      end
  end.

(** Message schedule, newest word first while it is being extended. *)
Fixpoint extend (n : nat) (wrev : list Z) : list Z :=
  match n with
  | O => wrev
  | S n' =>
      let w := add32 (add32 (ssig1 (nth 1 wrev 0)) (nth 6 wrev 0))
                     (add32 (ssig0 (nth 14 wrev 0)) (nth 15 wrev 0)) in
      extend n' (w :: wrev)
  end.

Definition schedule (block : list byte) : list Z :=
  rev (extend 48 (rev (words_of 16 block))).

Definition round (s : regs) (kw : Z * Z) : regs :=
  let t1 := add32 (add32 (add32 (rh s) (bsig1 (re s)))
                         (add32 (Ch (re s) (rf s) (rg s)) (fst kw))) (snd kw) in
  let t2 := add32 (bsig0 (ra s)) (Maj (ra s) (rb s) (rc s)) in
  Regs (add32 t1 t2) (ra s) (rb s) (rc s) (add32 (rd s) t1) (re s) (rf s) (rg s).

Definition compress (hv : regs) (block : list byte) : regs :=
  let s := fold_left round (combine K (schedule block)) hv in
  Regs (add32 (ra hv) (ra s)) (add32 (rb hv) (rb s))
       (add32 (rc hv) (rc s)) (add32 (rd hv) (rd s))
       (add32 (re hv) (re s)) (add32 (rf hv) (rf s))
       (add32 (rg hv) (rg s)) (add32 (rh hv) (rh s)).

(** The first [n] 64-byte blocks of a byte string. *)
Fixpoint blocks (n : nat) (bs : list byte) : list (list byte) :=
  match n with
  | O => []
  | S n' => firstn 64 bs :: blocks n' (skipn 64 bs)
  end.

Definition byte_of_Z (z : Z) : byte :=
  match Byte.of_N (Z.to_N (z mod 256)) with
  | Some b => b
  | None => x00
  end.

(** [k] bytes of [z], most significant first. *)
Fixpoint be_bytes (k : nat) (z : Z) : list byte :=
  match k with
  | O => []
  | S k' => byte_of_Z (Z.shiftr z (8 * Z.of_nat k')) :: be_bytes k' z
  end.

(** Padding for a message of [len] bytes: 0x80, zeros up to 56 mod 64,
    then the bit length on 64 bits. *)
Definition padding (len : nat) : list byte :=
  x80 :: repeat x00 ((119 - len mod 64) mod 64)
      ++ be_bytes 8 ((8 * Z.of_nat len) mod 2 ^ 64).

Definition regs_bytes (s : regs) : list byte :=
  be_bytes 4 (ra s) ++ be_bytes 4 (rb s) ++ be_bytes 4 (rc s) ++ be_bytes 4 (rd s)
  ++ be_bytes 4 (re s) ++ be_bytes 4 (rf s) ++ be_bytes 4 (rg s) ++ be_bytes 4 (rh s).

(** One-shot digest of a whole message. *)
Definition digest_of (msg : list byte) : list byte :=
  let padded := (msg ++ padding (List.length msg))%list in
  regs_bytes (fold_left compress (blocks (List.length padded / 64) padded) init_regs).

End SHA256.

(* ================================================================== *)
(** ** Python values, exceptions and the file system *)
(* ================================================================== *)

(** The JSON-like Python values the script builds.  A [dict] keeps its
    insertion order, as Python's does. *)
Inductive pyval : Type :=
  | PStr (s : string)
  | PInt (z : Z)
  | PList (items : list pyval)
  | PDict (fields : list (string * pyval)).

Definition dict : Type := list (string * pyval).

Fixpoint dict_get (k : string) (d : dict) : option pyval :=
  match d with
  | [] => None
  | (k', v) :: rest => if String.eqb k k' then Some v else dict_get k rest
  end.

(** [d[k] = v]: overwrite in place when the key is there, append otherwise. *)
Fixpoint dict_set (k : string) (v : pyval) (d : dict) : dict :=
  match d with
  | [] => [(k, v)]
  | (k', v') :: rest =>
      if String.eqb k k' then (k', v) :: rest else (k', v') :: dict_set k v rest
  end.

Definition dict_keys (d : dict) : list string := map fst d.

(** [v[k]] for a value that is a dict. *)
Definition item (k : string) (v : pyval) : option pyval :=
  match v with
  | PDict fields => dict_get k fields
  | _ => None
  end.

(** Uncaught exceptions the script can die of. *)
Inductive exn : Type :=
  | IsADirectoryError   (* [open] on a directory *)
  | ValueError.         (* [Path.glob] on an invalid pattern *)

Inductive result (A : Type) : Type :=
  | Ok (a : A)
  | Raise (e : exn).
Arguments Ok {A} a.
Arguments Raise {A} e.

Definition bind {A B : Type} (r : result A) (k : A -> result B) : result B :=
  match r with
  | Ok a => k a
  | Raise e => Raise e
  end.

Notation "x <- r ;; k" := (bind r (fun x => k))
  (at level 61, r at next level, right associativity).

(** A file-system object: a regular file with its bytes, or a directory
    with its entries in the order [os.scandir] lists them. *)
Inductive node : Type :=
  | File (data : list byte)
  | Dir (entries : list (string * node)).

Definition is_dir (n : node) : bool :=
  match n with Dir _ => true | File _ => false end.

(* ================================================================== *)
(** ** [hashlib.sha256] objects and [calculate_sha256] *)
(* ================================================================== *)

(** The state of a hash object: chaining value, bytes not yet forming a
    whole block, and the number of bytes absorbed so far. *)
Record hasher : Type := Hasher {
  h_regs : SHA256.regs;
  h_buf : list byte;
  h_len : nat }.

Definition sha256_new : hasher := Hasher SHA256.init_regs [] 0.

Definition update (st : hasher) (data : list byte) : hasher :=
  let pending := (h_buf st ++ data)%list in
  let nb := (List.length pending / 64)%nat in
  Hasher (fold_left SHA256.compress (SHA256.blocks nb pending) (h_regs st))
         (skipn (64 * nb) pending)
         (h_len st + List.length data).

Definition digest (st : hasher) : list byte :=
  let tail := (h_buf st ++ SHA256.padding (h_len st))%list in
  SHA256.regs_bytes
    (fold_left SHA256.compress
       (SHA256.blocks (List.length tail / 64) tail) (h_regs st)).

Definition hex_digit (n : N) : ascii :=
  nth (N.to_nat n)
      (list_ascii_of_string "0123456789abcdef") "0"%char.

Fixpoint hex_of_bytes (bs : list byte) : string :=
  match bs with
  | [] => EmptyString
  | b :: rest =>
      String (hex_digit (N.div (Byte.to_N b) 16))
        (String (hex_digit (N.modulo (Byte.to_N b) 16)) (hex_of_bytes rest))
  end.

Definition hexdigest (st : hasher) : string := hex_of_bytes (digest st).

(** The digest the specification speaks of: SHA-256 of the whole content,
    in lowercase hexadecimal. *)
Definition sha256_hex (content : list byte) : string :=
  hex_of_bytes (SHA256.digest_of content).

(** An open binary file: its bytes and the read position. *)
Record file_obj : Type := FileObj { fo_data : list byte; fo_pos : nat }.

(** [f.read(n)]: at most [n] bytes from the position, which advances. *)
Definition read (n : nat) (f : file_obj) : list byte * file_obj :=
  let chunk := firstn n (skipn (fo_pos f) (fo_data f)) in
  (chunk, FileObj (fo_data f) (fo_pos f + List.length chunk)).

(** [for chunk in iter(lambda: f.read(n), b""): h.update(chunk)].
    The loop ends at the first empty read; [fuel] bounds its turns. *)
Fixpoint feed (fuel n : nat) (f : file_obj) (st : hasher) : hasher :=
  match fuel with
  | O => st
  | S fuel' =>
      match read n f with
      | ([], _) => st
      | (chunk, f') => feed fuel' n f' (update st chunk)
      end
  end.

(** [calculate_sha256] with the chunk size as a parameter. *)
Definition calculate_sha256_chunked (chunk_size : nat) (file : node)
  : result string :=
  match file with
  | Dir _ => Raise IsADirectoryError
  | File data =>
      Ok (hexdigest (feed (S (List.length data)) chunk_size
                          (FileObj data 0) sha256_new))
  end.

Definition calculate_sha256 (file : node) : result string :=
  calculate_sha256_chunked 4096 file.

(* ================================================================== *)
(** ** Paths, [Path.suffix] and [fnmatch] *)
(* ================================================================== *)

Local Open Scope string_scope.

(** A path is the list of its components. *)
Definition path : Type := list string.

(** A place reached in the file system: the components walked, the
    directories above it (nearest first) and the object there. *)
Record loc : Type := Loc {
  loc_path : path;
  loc_up : list node;
  loc_node : node }.

(** [Path.name]: the final component. *)
Definition name (p : loc) : string := last (loc_path p) "".

Fixpoint rfind_dot (cs : list ascii) (i : nat) (found : option nat) : option nat :=
  match cs with
  | [] => found
  | c :: rest =>
      rfind_dot rest (S i) (if Ascii.eqb c "." then Some i else found)
  end.

(** [Path.suffix]: from the last dot on, unless that dot opens or closes
    the name. *)
Definition suffix (nm : string) : string :=
  let cs := list_ascii_of_string nm in
  match rfind_dot cs 0 None with
  | Some i =>
      if (Nat.ltb 0 i && Nat.ltb i (List.length cs - 1))%bool
      then string_of_list_ascii (skipn i cs)
      else ""
  | None => ""
  end.

(** What a shell pattern compiles to ([fnmatch.translate]). *)
Inductive gtok : Type :=
  | GStar                                   (* [*] *)
  | GAny                                    (* [?] *)
  | GLit (c : ascii)
  | GClass (negated : bool) (ranges : list (ascii * ascii)).   (* [[...]] *)

(** Members of a bracket expression: [a-b] is a range when the hyphen
    stands between two characters, anything else is itself. *)
Fixpoint class_ranges (cs : list ascii) : list (ascii * ascii) :=
  match cs with
  | [] => []
  | lo :: rest =>
      match rest with
      | "-"%char :: hi :: rest' => (lo, hi) :: class_ranges rest'
      | _ => (lo, lo) :: class_ranges rest
      end
  end.

(** The text up to the next [']'], and what follows it. *)
Fixpoint until_close (cs : list ascii) : option (list ascii * list ascii) :=
  match cs with
  | [] => None
  | c :: rest =>
      if Ascii.eqb c "]" then Some ([], rest)
      else match until_close rest with
           | Some (body, after) => Some (c :: body, after)
           | None => None
           end
  end.

(** After a ['[']: an optional [!], an optional leading [']'] that belongs
    to the set, then the set up to the closing bracket. *)
Definition bracket (cs : list ascii) : option (gtok * list ascii) :=
  let (neg, cs1) :=
    match cs with
    | "!"%char :: r => (true, r)
    | _ => (false, cs)
    end in
  let (lead, cs2) :=
    match cs1 with
    | "]"%char :: r => (["]"%char], r)
    | _ => ([], cs1)
    end in
  match until_close cs2 with
  | Some (body, after) =>
      let stuff := (lead ++ body)%list in
      Some (GClass neg (class_ranges stuff), after)
  | None => None
  end.

Fixpoint translate (fuel : nat) (pat : list ascii) : list gtok :=
  match fuel with
  | O => []
  | S fuel' =>
      match pat with
      | [] => []
      | c :: rest =>
          if Ascii.eqb c "*" then GStar :: translate fuel' rest
          else if Ascii.eqb c "?" then GAny :: translate fuel' rest
          else if Ascii.eqb c "[" then
            match bracket rest with
            | Some (cls, after) => cls :: translate fuel' after
            | None => GLit c :: translate fuel' rest
            end
          else GLit c :: translate fuel' rest
      end
  end.

Definition in_range (c : ascii) (r : ascii * ascii) : bool :=
  (Nat.leb (nat_of_ascii (fst r)) (nat_of_ascii c)
   && Nat.leb (nat_of_ascii c) (nat_of_ascii (snd r)))%bool.

Definition tok_accepts (t : gtok) (c : ascii) : bool :=
  match t with
  | GStar | GAny => true
  | GLit c' => Ascii.eqb c c'
  | GClass neg ranges => xorb neg (existsb (in_range c) ranges)
  end.

Fixpoint gmatch (toks : list gtok) (cs : list ascii) : bool :=
  match toks with
  | [] => match cs with [] => true | _ => false end
  | GStar :: toks' =>
      (fix star (cs : list ascii) : bool :=
         (gmatch toks' cs
          || match cs with [] => false | _ :: cs' => star cs' end)%bool) cs
  | t :: toks' =>
      match cs with
      | [] => false
      | c :: cs' => (tok_accepts t c && gmatch toks' cs')%bool
      end
  end.

(** [fnmatch.fnmatchcase(nm, pat)], as the POSIX flavour of [pathlib]
    uses it. *)
Definition fnmatch (pat nm : string) : bool :=
  let p := list_ascii_of_string pat in
  gmatch (translate (List.length p) p) (list_ascii_of_string nm).

Fixpoint contains_any (chars cs : list ascii) : bool :=
  match cs with
  | [] => false
  | c :: rest => (existsb (Ascii.eqb c) chars || contains_any chars rest)%bool
  end.

(** [_is_wildcard_pattern]. *)
Definition is_wildcard_pattern (pat : string) : bool :=
  contains_any ["*"%char; "?"%char; "["%char] (list_ascii_of_string pat).

(** ["**" in pat]. *)
Fixpoint has_double_star (cs : list ascii) : bool :=
  match cs with
  | "*"%char :: "*"%char :: _ => true
  | _ :: rest => has_double_star rest
  | [] => false
  end.

(* ================================================================== *)
(** ** Walking the tree: [Path.exists] and [Path.glob] *)
(* ================================================================== *)

(** The walk is that of CPython's [pathlib] (3.8 to 3.11) on a POSIX
    system: names compare exactly, [**] stands for the directory and all
    directories below it, and a component that merely contains [**] is an
    invalid pattern.  The tree holds regular files and directories; it has
    no symbolic links, every object in it can be listed, opened and read,
    and names are strings of 8-bit characters, matched character by
    character. *)

Fixpoint lookup (nm : string) (entries : list (string * node)) : option node :=
  match entries with
  | [] => None
  | (nm', n) :: rest => if String.eqb nm nm' then Some n else lookup nm rest
  end.

(** One step down (or, for [".."], up) from a place; [None] when there is
    nothing under that name. *)
Definition child (nm : string) (p : loc) : option loc :=
  match loc_node p with
  | File _ => None
  | Dir entries =>
      if String.eqb nm ".." then
        match loc_up p with
        | [] => Some (Loc (loc_path p ++ [nm])%list [] (loc_node p))
        | parent :: up => Some (Loc (loc_path p ++ [nm])%list up parent)
        end
      else if String.eqb nm "." then
        Some (Loc (loc_path p ++ [nm])%list (loc_up p) (loc_node p))
      else
        match lookup nm entries with
        | Some n => Some (Loc (loc_path p ++ [nm])%list (loc_node p :: loc_up p) n)
        | None => None
        end
  end.

(** Resolving a path from a place. *)
Fixpoint walk (p : loc) (components : path) : option loc :=
  match components with
  | [] => Some p
  | c :: rest =>
      match child c p with
      | Some p' => walk p' rest
      | None => None
      end
  end.

(** The file system is its root directory. *)
Definition root_loc (fs : node) : loc := Loc [] [] fs.

Definition resolve (fs : node) (p : path) : option loc := walk (root_loc fs) p.

(** [Path.exists], on a tree every part of which can be examined. *)
Definition exists_ (fs : node) (p : path) : bool :=
  match resolve fs p with Some _ => true | None => false end.

(** The entries of a directory as places, in listing order. *)
Definition children (p : loc) : list loc :=
  match loc_node p with
  | File _ => []
  | Dir entries =>
      map (fun e => Loc (loc_path p ++ [fst e])%list (loc_node p :: loc_up p) (snd e))
          entries
  end.

(** [_iterate_directories]: the directory itself, then every directory
    below it, depth first in listing order. *)
Fixpoint iterate_directories (pth : path) (up : list node) (n : node)
  : list loc :=
  Loc pth up n ::
  match n with
  | File _ => []
  | Dir entries =>
      flat_map
        (fun e =>
           match snd e with
           | Dir _ => iterate_directories (pth ++ [fst e])%list (n :: up) (snd e)
           | File _ => []
           end)
        entries
  end.

(** One component of a glob pattern ([_make_selector]). *)
Inductive selector : Type :=
  | Recursive                   (* [**] *)
  | Wildcard (pat : string)     (* a component with [*], [?] or [[] *)
  | Precise (nm : string).      (* any other component *)

Definition path_eqb (p q : path) : bool :=
  if list_eq_dec string_dec p q then true else false.

(** Keep the first of the places that share a path (the [yielded] set). *)
Fixpoint unique (seen : list path) (ps : list loc) : list loc :=
  match ps with
  | [] => []
  | p :: rest =>
      if existsb (path_eqb (loc_path p)) seen then unique seen rest
      else p :: unique (loc_path p :: seen) rest
  end.

Definition null {A : Type} (l : list A) : bool :=
  match l with [] => true | _ => false end.

(** [_select_from] along the chain of selectors. *)
Fixpoint select_from (sels : list selector) (p : loc) : list loc :=
  match sels with
  | [] => [p]
  | sel :: rest =>
      let dironly := negb (null rest) in
      let allowed (c : loc) := (negb dironly || is_dir (loc_node c))%bool in
      match sel with
      | Precise nm =>
          match child nm p with
          | Some c => if allowed c then select_from rest c else []
          | None => []
          end
      | Wildcard pat =>
          flat_map (select_from rest)
            (filter (fun c => (allowed c && fnmatch pat (name c))%bool)
                    (children p))
      | Recursive =>
          unique []
            (flat_map (select_from rest)
               (iterate_directories (loc_path p) (loc_up p) (loc_node p)))
      end
  end.

(** Splitting a pattern at ["/"]. *)
Fixpoint split_slash (cs cur : list ascii) : list string :=
  match cs with
  | [] => [string_of_list_ascii (rev cur)]
  | c :: rest =>
      if Ascii.eqb c "/" then string_of_list_ascii (rev cur) :: split_slash rest []
      else split_slash rest (c :: cur)
  end.

(** The components of a pattern: empty ones and ["."] are dropped. *)
Definition pattern_parts (pattern : string) : list string :=
  filter (fun part => negb (String.eqb part "" || String.eqb part "."))
         (split_slash (list_ascii_of_string pattern) []).

Definition make_selector (part : string) : result selector :=
  if String.eqb part "**" then Ok Recursive
  else if has_double_star (list_ascii_of_string part) then Raise ValueError
  else if is_wildcard_pattern part then Ok (Wildcard part)
  else Ok (Precise part).

Fixpoint make_selectors (parts : list string) : result (list selector) :=
  match parts with
  | [] => Ok []
  | part :: rest =>
      sel <- make_selector part ;;
      sels <- make_selectors rest ;;
      Ok (sel :: sels)
  end.

(** [dir.glob(pattern)] for a relative pattern: every selector is built
    before anything is listed, and something that is not a directory has
    no matches. *)
Definition glob (fs : node) (dir : path) (pattern : string)
  : result (list loc) :=
  sels <- make_selectors (pattern_parts pattern) ;;
  Ok (match resolve fs dir with
      | Some d => if is_dir (loc_node d) then select_from sels d else []
      | None => []
      end).

(* ================================================================== *)
(** ** [find_artifacts] *)
(* ================================================================== *)

Definition release_base : string :=
  "https://github.com/Codeenk/airdb/releases/download/v".

(** [file.stat().st_size]; the model gives a directory no size of its own. *)
Definition st_size (n : node) : Z :=
  match n with
  | File data => Z.of_nat (List.length data)
  | Dir _ => 0
  end.

(** The dict literal built for an accepted file; its values are computed
    in the order written, so a failing checksum ends it. *)
Definition artifact_record (version : string) (file : loc) : result pyval :=
  let url := release_base ++ version ++ "/" ++ name file in
  sha <- calculate_sha256 (loc_node file) ;;
  Ok (PDict [ ("url", PStr url);
              ("sha256", PStr sha);
              ("size", PInt (st_size (loc_node file)));
              ("filename", PStr (name file)) ]).

(** The three blocks of [find_artifacts] are one loop run with three
    settings: the patterns in order, the check made on [file.suffix], and
    the key written. *)
Record platform : Type := Platform {
  key : string;
  patterns : string -> list string;
  accepts : string -> bool }.

Definition linux_patterns (version : string) : list string :=
  [ "**/airdb_" ++ version ++ "_amd64.AppImage";
    "**/airdb_" ++ version ++ "_amd64.deb" ].

Definition windows_patterns (version : string) : list string :=
  [ "**/airdb_" ++ version ++ "_x64-setup.exe";
    "**/airdb_" ++ version ++ "_x64_en-US.msi" ].

Definition macos_patterns (version : string) : list string :=
  [ "**/airdb_" ++ version ++ "_x64.dmg";
    "**/airdb_" ++ version ++ "_aarch64.dmg" ].

Definition linux : platform :=
  Platform "linux" linux_patterns (fun sfx => String.eqb sfx ".AppImage").

Definition windows : platform :=
  Platform "windows" windows_patterns
           (fun sfx => existsb (String.eqb sfx) [".exe"; ".msi"]).

Definition macos : platform :=
  Platform "macos" macos_patterns (fun sfx => String.eqb sfx ".dmg").

(** The inner loop: [for file in bundle_dir.glob(pattern)], left by
    [break] after the first accepted file has been recorded. *)
Fixpoint scan_files (pf : platform) (version : string) (files : list loc)
                    (artifacts : dict) : result dict :=
  match files with
  | [] => Ok artifacts
  | file :: rest =>
      if accepts pf (suffix (name file)) then
        record <- artifact_record version file ;;
        Ok (dict_set (key pf) record artifacts)
      else scan_files pf version rest artifacts
  end.

(** The outer loop: [for pattern in patterns].  The [break] above leaves
    only the inner loop, so every pattern is searched. *)
Fixpoint scan_patterns (pf : platform) (version : string)
                       (fs : node) (bundle_dir : path)
                       (pats : list string) (artifacts : dict) : result dict :=
  match pats with
  | [] => Ok artifacts
  | pattern :: rest =>
      files <- glob fs bundle_dir pattern ;;
      artifacts' <- scan_files pf version files artifacts ;;
      scan_patterns pf version fs bundle_dir rest artifacts'
  end.

Definition scan_platform (pf : platform) (version : string)
                         (fs : node) (bundle_dir : path)
                         (artifacts : dict) : result dict :=
  scan_patterns pf version fs bundle_dir (patterns pf version) artifacts.

Definition find_artifacts (fs : node) (bundle_dir : path) (version : string)
  : result dict :=
  artifacts <- scan_platform linux version fs bundle_dir [] ;;
  artifacts <- scan_platform windows version fs bundle_dir artifacts ;;
  scan_platform macos version fs bundle_dir artifacts.

(* ================================================================== *)
(** ** [generate_manifest] *)
(* ================================================================== *)

(** The UTC date [datetime.utcnow()] reads off the clock. *)
Record date : Type := Date { year : nat; month : nat; day : nat }.

Definition decimal (n : nat) : string :=
  NilEmpty.string_of_uint (Nat.to_uint n).

Fixpoint zeros (n : nat) : string :=
  match n with O => "" | S n' => String "0" (zeros n') end.

Definition padded (width n : nat) : string :=
  let d := decimal n in zeros (width - String.length d) ++ d.

(** [strftime("%Y-%m-%d")]. *)
Definition strftime_ymd (d : date) : string :=
  padded 4 (year d) ++ "-" ++ padded 2 (month d) ++ "-" ++ padded 2 (day d).

Definition default {A : Type} (d : A) (arg : option A) : A :=
  match arg with Some a => a | None => d end.

(** [changelog or []]. *)
Definition or_empty (changelog : option (list string)) : list string :=
  match changelog with
  | Some (e :: es) => e :: es
  | Some [] | None => []
  end.

(** [generate_manifest].  [now] is the clock reading and [fs] the file
    system.  An argument left out is [None]: [channel] and [min_version]
    then take the defaults of the signature, [changelog] and [bundle_dir]
    are Python's [None]. *)
Definition generate_manifest (now : date) (fs : node)
    (version : string) (channel min_version : option string)
    (changelog : option (list string)) (bundle_dir : option path)
  : result dict :=
  let manifest : dict :=
    [ ("version", PStr version);
      ("channel", PStr (default "stable" channel));
      ("release_date", PStr (strftime_ymd now));
      ("min_supported_version", PStr (default "0.1.0" min_version));
      ("changelog", PList (map PStr (or_empty changelog)));
      ("artifacts", PDict []);
      ("signature", PStr "") ] in
  match bundle_dir with
  | None => Ok manifest
  | Some dir =>
      if exists_ fs dir then
        artifacts <- find_artifacts fs dir version ;;
        Ok (dict_set "artifacts" (PDict artifacts) manifest)
      else Ok manifest
  end.

(* ================================================================== *)
(** ** The command line: the [argparse] parser of [main] *)
(* ================================================================== *)

(** The parser is read as CPython's [argparse] (up to 3.11) reads it:
    long options may be abbreviated to an unambiguous prefix and may carry
    their value after [=]; words are classified in a first pass and
    consumed left to right in a second; [-h] and [--help] print the usage
    and exit with status 0, every usage error exits with status 2.
    Words are strings of 8-bit characters: digits are the ASCII ones. *)

(** The options [main] declares, and the [-h/--help] every parser has. *)
Inductive opt : Type :=
  | OHelp | OVersion | OChannel | OMinVersion | OChangelog | OBundleDir | OOutput.

Definition long_options : list (string * opt) :=
  [ ("--help", OHelp); ("--version", OVersion); ("--channel", OChannel);
    ("--min-version", OMinVersion); ("--changelog", OChangelog);
    ("--bundle-dir", OBundleDir); ("--output", OOutput) ].

(** How the parser reads one word of the command line. *)
Inductive word_class : Type :=
  | WArg                                        (* a value *)
  | WDash                                       (* the first bare [--] *)
  | WOpt (o : option opt) (explicit : option string).
      (* an option, known or not, with the text after [=] if any *)

Fixpoint starts_with (pre cs : list ascii) : bool :=
  match pre, cs with
  | [], _ => true
  | p :: pre', c :: cs' => (Ascii.eqb p c && starts_with pre' cs')%bool
  | _ :: _, [] => false
  end.

(** Splitting at the first [=]. *)
Fixpoint split_eq (cs : list ascii) : list ascii * option (list ascii) :=
  match cs with
  | [] => ([], None)
  | c :: rest =>
      if Ascii.eqb c "=" then ([], Some rest)
      else let (l, r) := split_eq rest in (c :: l, r)
  end.

Definition is_digit (c : ascii) : bool :=
  (Nat.leb 48 (nat_of_ascii c) && Nat.leb (nat_of_ascii c) 57)%bool.

Fixpoint span_digits (cs : list ascii) : list ascii * list ascii :=
  match cs with
  | c :: rest =>
      if is_digit c then let (d, r) := span_digits rest in (c :: d, r)
      else ([], cs)
  | [] => ([], [])
  end.

(** The end of the text, which [$] also finds before one last newline. *)
Definition at_end (cs : list ascii) : bool :=
  match cs with
  | [] => true
  | [c] => Ascii.eqb c "010"
  | _ => false
  end.

(** [^-\d+$] or [^-\d*\.\d+$]: such a word is a value, not an option. *)
Definition negative_number (cs : list ascii) : bool :=
  match cs with
  | "-"%char :: rest =>
      match span_digits rest with
      | (_ :: _, "."%char :: frac) =>
          match span_digits frac with
          | (_ :: _, tail) => at_end tail
          | _ => false
          end
      | (_ :: _, tail) => at_end tail
      | ([], "."%char :: frac) =>
          match span_digits frac with
          | (_ :: _, tail) => at_end tail
          | _ => false
          end
      | _ => false
      end
  | _ => false
  end.

(** [_parse_optional]; [None] is the error of an ambiguous abbreviation. *)
Definition classify (w : string) : option word_class :=
  let cs := list_ascii_of_string w in
  match cs with
  | "-"%char :: "-"%char :: _ =>
      let (pre, explicit) := split_eq cs in
      match filter (fun o => starts_with pre (list_ascii_of_string (fst o)))
                   long_options with
      | [o] => Some (WOpt (Some (snd o)) (option_map string_of_list_ascii explicit))
      | _ :: _ :: _ => None
      | [] =>
          if existsb (Ascii.eqb " ") cs then Some WArg
          else Some (WOpt None None)
      end
  | "-"%char :: "h"%char :: rest =>
      Some (WOpt (Some OHelp)
              (match rest with
               | [] => None
               | "="%char :: e => Some (string_of_list_ascii e)
               | _ => Some (string_of_list_ascii rest)
               end))
  | "-"%char :: _ :: _ =>
      if (negative_number cs || existsb (Ascii.eqb " ") cs)%bool then Some WArg
      else Some (WOpt None None)
  | _ => Some WArg
  end.

(** The first pass over the command line; everything after the first bare
    [--] is a value. *)
Fixpoint classify_all (dashed : bool) (argv : list string)
  : option (list (word_class * string)) :=
  match argv with
  | [] => Some []
  | w :: rest =>
      if dashed then
        option_map (cons (WArg, w)) (classify_all true rest)
      else if String.eqb w "--" then
        option_map (cons (WDash, w)) (classify_all true rest)
      else
        match classify w, classify_all false rest with
        | Some c, Some cs => Some ((c, w) :: cs)
        | _, _ => None
        end
  end.

(** What [parse_args] fills in, with the declared defaults. *)
Record namespace : Type := Namespace {
  ns_version : option string;
  ns_channel : string;
  ns_min_version : string;
  ns_changelog : option (list string);
  ns_bundle_dir : option string;
  ns_output : string }.

Definition initial_namespace : namespace :=
  Namespace None "stable" "0.1.0" None None "update-manifest.json".

Definition is_arg (c : word_class * string) : bool :=
  match fst c with WArg => true | _ => false end.

Fixpoint span {A : Type} (f : A -> bool) (l : list A) : list A * list A :=
  match l with
  | x :: rest => if f x then let (a, b) := span f rest in (x :: a, b) else ([], l)
  | [] => ([], [])
  end.

(** The words after an option that its [nargs] takes: one value, or one
    and more ([+]).  Only words that read as values are taken; an option,
    or the bare [--], ends them.  [None] when no value is there. *)
Definition take_values (many : bool) (rest : list (word_class * string))
  : option (list string * list (word_class * string)) :=
  match rest with
  | (WArg, v) :: r2 =>
      let (more, r3) := if many then span is_arg r2 else ([], r2) in
      Some (v :: map snd more, r3)
  | _ => None
  end.

Definition store (o : opt) (vals : list string) (ns : namespace) : namespace :=
  let v := hd "" vals in
  match o with
  | OHelp => ns
  | OVersion =>
      Namespace (Some v) (ns_channel ns) (ns_min_version ns)
                (ns_changelog ns) (ns_bundle_dir ns) (ns_output ns)
  | OChannel =>
      Namespace (ns_version ns) v (ns_min_version ns)
                (ns_changelog ns) (ns_bundle_dir ns) (ns_output ns)
  | OMinVersion =>
      Namespace (ns_version ns) (ns_channel ns) v
                (ns_changelog ns) (ns_bundle_dir ns) (ns_output ns)
  | OChangelog =>
      Namespace (ns_version ns) (ns_channel ns) (ns_min_version ns)
                (Some vals) (ns_bundle_dir ns) (ns_output ns)
  | OBundleDir =>
      Namespace (ns_version ns) (ns_channel ns) (ns_min_version ns)
                (ns_changelog ns) (Some v) (ns_output ns)
  | OOutput =>
      Namespace (ns_version ns) (ns_channel ns) (ns_min_version ns)
                (ns_changelog ns) (ns_bundle_dir ns) v
  end.

(** How parsing ends: the parser exits (status 0 after help, 2 after a
    usage error) or hands over the arguments. *)
Inductive parsed : Type :=
  | ParseExit (status : nat)
  | Parsed (version channel min_version : string)
           (changelog : option (list string))
           (bundle_dir : option string) (output : string).

(** The text stuck to a short [-h] is read as more short flags: it is
    accepted when it is [h]s only. *)
Definition all_h (s : string) : bool :=
  (negb (String.eqb s "") && forallb (Ascii.eqb "h") (list_ascii_of_string s))%bool.

(** The second pass, left to right.  [extras] records that some word was
    left over, which is an error once the end is reached. *)
Fixpoint consume (fuel : nat) (ws : list (word_class * string))
                 (extras : bool) (ns : namespace) : parsed :=
  match fuel with
  | O => ParseExit 2
  | S fuel' =>
      match ws with
      | [] =>
          match ns_version ns with
          | None => ParseExit 2                 (* required argument missing *)
          | Some v =>
              if extras then ParseExit 2        (* unrecognized arguments *)
              else Parsed v (ns_channel ns) (ns_min_version ns)
                          (ns_changelog ns) (ns_bundle_dir ns) (ns_output ns)
          end
      | (WArg, _) :: rest | (WDash, _) :: rest
      | (WOpt None _, _) :: rest => consume fuel' rest true ns
      | (WOpt (Some OHelp) None, _) :: _ => ParseExit 0
      | (WOpt (Some OHelp) (Some e), w) :: _ =>
          if (starts_with (list_ascii_of_string "--") (list_ascii_of_string w)
              || negb (all_h e))%bool
          then ParseExit 2                      (* ignored explicit argument *)
          else ParseExit 0
      | (WOpt (Some o) (Some e), _) :: rest =>
          consume fuel' rest extras (store o [e] ns)
      | (WOpt (Some o) None, _) :: rest =>
          match take_values (match o with OChangelog => true | _ => false end)
                            rest with
          | Some (vals, rest') => consume fuel' rest' extras (store o vals ns)
          | None => ParseExit 2                 (* expected an argument *)
          end
      end
  end.

(** [parser.parse_args()] on the words after the program name. *)
Definition parse_args (argv : list string) : parsed :=
  match classify_all false argv with
  | None => ParseExit 2
  | Some ws => consume (S (List.length ws)) ws false initial_namespace
  end.

(* ================================================================== *)
(** ** [main] *)
(* ================================================================== *)

(** [Path(text)] resolved against the working directory. *)
Definition to_path (cwd : path) (text : string) : path :=
  if starts_with ["/"%char] (list_ascii_of_string text)
  then pattern_parts text
  else (cwd ++ pattern_parts text)%list.

(** How a run ends: the parser exits, an exception escapes from
    [generate_manifest], or the manifest is dumped to the output file and
    printed.  Opening the output file, [json.dump] and [print] are taken to
    succeed: [Written] stands for a run that has reached them. *)
Inductive outcome : Type :=
  | Exited (status : nat)
  | Crashed (e : exn)
  | Written (output : string) (manifest : dict).

Definition main (now : date) (fs : node) (cwd : path) (argv : list string)
  : outcome :=
  match parse_args argv with
  | ParseExit status => Exited status
  | Parsed version channel min_version changelog bundle_dir output =>
      match generate_manifest now fs version (Some channel) (Some min_version)
                              changelog (option_map (to_path cwd) bundle_dir) with
      | Ok manifest => Written output manifest
      | Raise e => Crashed e
      end
  end.

(* ================================================================== *)
(** ** Vocabulary of the statements *)
(* ================================================================== *)

(** The platforms, in the order [find_artifacts] treats them. *)
Definition platforms : list platform := [linux; windows; macos].

(** [file] is one of the files some pattern of [pf] matched under the
    bundle directory, and its suffix passed the check. *)
Definition located (pf : platform) (fs : node) (bundle_dir : path)
                   (version : string) (file : loc) : Prop :=
  exists pattern files,
    In pattern (patterns pf version)
    /\ glob fs bundle_dir pattern = Ok files
    /\ In file files
    /\ accepts pf (suffix (name file)) = true.

(** Every entry of the mapping is the record of a located file, under the
    key of its platform. *)
Definition entries_from (pfs : list platform) (fs : node) (bundle_dir : path)
                        (version : string) (artifacts : dict) : Prop :=
  forall k v, In (k, v) artifacts ->
    exists pf file,
      In pf pfs /\ k = key pf
      /\ located pf fs bundle_dir version file
      /\ artifact_record version file = Ok v.


(** The top-level keys of a manifest, in the order they are written. *)
Definition manifest_keys : list string :=
  [ "version"; "channel"; "release_date"; "min_supported_version";
    "changelog"; "artifacts"; "signature" ].

(** The fields a rerun must reproduce: all but the date. *)
Definition reproducible_keys : list string :=
  [ "artifacts"; "version"; "channel"; "min_supported_version"; "changelog" ].

(** The words of a command line that select [--version] or ask for help,
    abbreviations and [=] forms included. *)
Definition names_version (w : string) : bool :=
  match classify w with
  | Some (WOpt (Some OVersion) _) => true
  | _ => false
  end.

Definition names_help (w : string) : bool :=
  match classify w with
  | Some (WOpt (Some OHelp) _) => true
  | _ => false
  end.

(** The text a word carries after [=], if it is an option that has one. *)
Definition explicit_text (w : string) : option string :=
  match classify w with
  | Some (WOpt _ e) => e
  | _ => None
  end.

(** The version the command line gives: the text after [=] of the last
    word that selects [--version], or else the word that follows it.
    Words after a bare [--] give nothing. *)
Fixpoint version_given (argv : list string) (acc : option string)
  : option string :=
  match argv with
  | [] => acc
  | w :: rest =>
      if String.eqb w "--" then acc
      else if names_version w then
        version_given rest
          (match explicit_text w with
           | Some text => Some text
           | None => match rest with v :: _ => Some v | [] => acc end
           end)
      else version_given rest acc
  end.


(** The same two tests on a word already classified. *)
Definition selects_version (c : word_class * string) : bool :=
  match fst c with WOpt (Some OVersion) _ => true | _ => false end.

Definition selects_help (c : word_class * string) : bool :=
  match fst c with WOpt (Some OHelp) _ => true | _ => false end.

(** The record of a file called [nm] holding [data], for [version]. *)
Definition record_of (version nm : string) (data : list byte) : pyval :=
  PDict [ ("url", PStr (release_base ++ version ++ "/" ++ nm));
          ("sha256", PStr (sha256_hex data));
          ("size", PInt (Z.of_nat (List.length data)));
          ("filename", PStr nm) ].

(** The manifest before the Locator's result is adopted. *)
Definition base_manifest (now : date) (version : string)
    (channel min_version : option string) (changelog : option (list string))
  : dict :=
  [ ("version", PStr version);
    ("channel", PStr (default "stable" channel));
    ("release_date", PStr (strftime_ymd now));
    ("min_supported_version", PStr (default "0.1.0" min_version));
    ("changelog", PList (map PStr (or_empty changelog)));
    ("artifacts", PDict []);
    ("signature", PStr "") ].

(* ================================================================== *)
(** ** Sample bundles *)
(* ================================================================== *)

Definition bytes_of (s : string) : list byte := list_byte_of_string s.

(** A build tree with both Windows installers and both macOS images. *)
Definition bundle_with_pairs : node :=
  Dir [ ("bundle",
         Dir [ ("nsis", Dir [ ("airdb_1.2.0_x64-setup.exe", File (bytes_of "setup")) ]);
               ("msi", Dir [ ("airdb_1.2.0_x64_en-US.msi", File (bytes_of "package")) ]);
               ("dmg", Dir [ ("airdb_1.2.0_x64.dmg", File (bytes_of "intel"));
                             ("airdb_1.2.0_aarch64.dmg", File (bytes_of "arm")) ]) ]) ].

(** A build tree whose only artifact is the Debian package. *)
Definition bundle_deb_only : node :=
  Dir [ ("bundle",
         Dir [ ("deb", Dir [ ("airdb_1.2.0_amd64.deb", File (bytes_of "debian")) ]) ]) ].

(** A build tree whose only artifact is a 1000-byte AppImage. *)
Definition bundle_appimage_only : node :=
  Dir [ ("bundle",
         Dir [ ("appimage",
                Dir [ ("airdb_1.2.0_amd64.AppImage", File (repeat x61 1000)) ]) ]) ].

(** What the Locator returns for [bundle_with_pairs]. *)
Definition artifacts_with_pairs : dict :=
  [ ("windows", record_of "1.2.0" "airdb_1.2.0_x64_en-US.msi" (bytes_of "package"));
    ("macos", record_of "1.2.0" "airdb_1.2.0_aarch64.dmg" (bytes_of "arm")) ].

(** What the Locator returns for [bundle_appimage_only]. *)
Definition artifacts_appimage_only : dict :=
  [ ("linux", record_of "1.2.0" "airdb_1.2.0_amd64.AppImage" (repeat x61 1000)) ].

Definition some_day : date := Date 2024 3 7.
Definition other_day : date := Date 2025 11 30.

(** The manifest expected for [bundle_with_pairs] on [some_day]. *)
Definition manifest_with_pairs : dict :=
  [ ("version", PStr "1.2.0");
    ("channel", PStr "stable");
    ("release_date", PStr "2024-03-07");
    ("min_supported_version", PStr "0.1.0");
    ("changelog", PList []);
    ("artifacts", PDict artifacts_with_pairs);
    ("signature", PStr "") ].

(** The first file of a listing whose suffix the platform accepts. *)
Definition first_accepted (pf : platform) (files : list loc) : option loc :=
  find (fun file => accepts pf (suffix (name file))) files.

(** The names a pattern matches under a directory, in the order found. *)
Definition matched_names (fs : node) (dir : path) (pattern : string)
  : result (list string) :=
  files <- glob fs dir pattern ;; Ok (map name files).

(** The mapping has an entry under [k]. *)
Definition has_key (k : string) (d : dict) : Prop :=
  exists v, dict_get k d = Some v.

(* ================================================================== *)
(** ** Vocabulary of the further properties *)
(* ================================================================== *)

(** The file whose record a platform's key holds once all of [pats] have
    been searched: the first accepted match of the last pattern that has
    one, and [acc] when none has. *)
Fixpoint chosen_among (pf : platform) (fs : node) (dir : path)
                      (pats : list string) (acc : option loc) : option loc :=
  match pats with
  | [] => acc
  | pattern :: rest =>
      chosen_among pf fs dir rest
        (match glob fs dir pattern with
         | Ok files =>
             match first_accepted pf files with
             | Some file => Some file
             | None => acc
             end
         | Raise _ => acc
         end)
  end.

Definition chosen (pf : platform) (fs : node) (dir : path) (version : string)
  : option loc :=
  chosen_among pf fs dir (patterns pf version) None.

(** What the key [key pf] of [d] holds when [sel] is the file chosen. *)
Definition holds (pf : platform) (version : string) (sel : option loc)
                 (d : dict) : Prop :=
  match sel with
  | Some file =>
      exists data,
        loc_node file = File data
        /\ dict_get (key pf) d = Some (record_of version (name file) data)
  | None => dict_get (key pf) d = None
  end.

(** Every pattern of the platform is valid and its first accepted match,
    if it has one, is a regular file. *)
Definition readable (pf : platform) (fs : node) (dir : path)
                    (version : string) : Prop :=
  forall pattern, In pattern (patterns pf version) ->
    exists files,
      glob fs dir pattern = Ok files
      /\ match first_accepted pf files with
         | Some file => is_dir (loc_node file) = false
         | None => True
         end.

(** A lowercase hexadecimal digit. *)
Definition is_hex_lower (c : ascii) : bool :=
  existsb (Ascii.eqb c) (list_ascii_of_string "0123456789abcdef").

(** The orders in which the platform keys can appear in the mapping. *)
Definition key_orders : list (list string) :=
  [ []; ["linux"]; ["windows"]; ["macos"];
    ["linux"; "windows"]; ["linux"; "macos"]; ["windows"; "macos"];
    ["linux"; "windows"; "macos"] ].

(** The keys other than ["artifacts"]. *)
Definition scalar_keys : list string :=
  [ "version"; "channel"; "release_date"; "min_supported_version";
    "changelog"; "signature" ].

(** A version without [/] and without the characters [*], [?], [[] that
    [glob] reads as wildcards. *)
Definition plain_char (c : ascii) : bool :=
  negb (existsb (Ascii.eqb c) ["/"%char; "*"%char; "?"%char; "["%char]).

Definition plain (s : string) : bool :=
  forallb plain_char (list_ascii_of_string s).

(** The file names a platform's entry can carry for a plain version. *)
Definition accepted_names (k version : string) : list string :=
  if String.eqb k "linux" then
    [ "airdb_" ++ version ++ "_amd64.AppImage" ]
  else if String.eqb k "windows" then
    [ "airdb_" ++ version ++ "_x64-setup.exe";
      "airdb_" ++ version ++ "_x64_en-US.msi" ]
  else if String.eqb k "macos" then
    [ "airdb_" ++ version ++ "_x64.dmg";
      "airdb_" ++ version ++ "_aarch64.dmg" ]
  else [].

(** A component that names an entry, not the directory itself or its
    parent. *)
Definition normal (c : string) : bool :=
  negb (String.eqb c ".." || String.eqb c ".").

(** A build tree in which the name of the Windows installer is borne by a
    directory. *)
Definition bundle_with_directory_inner : node :=
  Dir [ ("airdb_1.2.0_amd64.AppImage", File (bytes_of "image"));
        ("airdb_1.2.0_x64-setup.exe", Dir []) ].

Definition bundle_with_directory : node :=
  Dir [ ("bundle", bundle_with_directory_inner) ].

(** The place of that directory. *)
Definition directory_match : loc :=
  Loc ["bundle"; "airdb_1.2.0_x64-setup.exe"]
      [bundle_with_directory_inner; bundle_with_directory]
      (Dir []).

(** The place a path leads to (the root when it leads nowhere). *)
Definition place (fs : node) (p : path) : loc :=
  match resolve fs p with
  | Some l => l
  | None => root_loc fs
  end.

Definition opt_eqb (a b : opt) : bool :=
  match a, b with
  | OHelp, OHelp | OVersion, OVersion | OChannel, OChannel
  | OMinVersion, OMinVersion | OChangelog, OChangelog
  | OBundleDir, OBundleDir | OOutput, OOutput => true
  | _, _ => false
  end.

(** The words of a command line that select the option [o], and the same
    test on a word already classified. *)
Definition names (o : opt) (w : string) : bool :=
  match classify w with
  | Some (WOpt (Some o') _) => opt_eqb o o'
  | _ => false
  end.

Definition selects (o : opt) (c : word_class * string) : bool :=
  match fst c with
  | WOpt (Some o') _ => opt_eqb o o'
  | _ => false
  end.

(** The namespace a successful parse stands for. *)
Definition namespace_of (p : parsed) : option namespace :=
  match p with
  | Parsed v c mv cl bd out => Some (Namespace (Some v) c mv cl bd out)
  | ParseExit _ => None
  end.

(** A string of exactly [n] decimal digits. *)
Definition digits (n : nat) (s : string) : bool :=
  (Nat.eqb (String.length s) n
   && forallb is_digit (list_ascii_of_string s))%bool.

(** A build tree in which the bundle path leads to a regular file. *)
Definition bundle_is_a_file : node :=
  Dir [ ("bundle", File (bytes_of "not a directory")) ].

(* ================================================================== *)
(** ** Test vectors *)
(* ================================================================== *)

(** FIPS 180-4 examples for the one-shot digest. *)
Example sha256_empty :
  sha256_hex []
  = "e3b0c44298fc1c149afbf4c8996fb92427ae41e4649b934ca495991b7852b855".
Proof. vm_compute; reflexivity. Qed.

Example sha256_abc :
  sha256_hex (bytes_of "abc")
  = "ba7816bf8f01cfea414140de5dae2223b00361a396177a9cb410ff61f20015ad".
Proof. vm_compute; reflexivity. Qed.

Example sha256_two_blocks :
  sha256_hex
    (bytes_of "abcdbcdecdefdefgefghfghighijhijkijkljklmklmnlmnomnopnopq")
  = "248d6a61d20638b8e5c026930c3e6039a33ce45964ff2167f6ecedd419db06c1".
Proof. vm_compute; reflexivity. Qed.

(** [Path.suffix] and [fnmatch] on names of the kind the script meets. *)
Example suffix_examples :
  suffix "airdb_1.2.0_amd64.AppImage" = ".AppImage"
  /\ suffix "airdb_1.2.0_x64-setup.exe" = ".exe"
  /\ suffix ".hidden" = "" /\ suffix "trailing." = "" /\ suffix "plain" = "".
Proof. repeat split. Qed.

Example fnmatch_examples :
  fnmatch "airdb_1.*_x64.dmg" "airdb_1.2.0_x64.dmg" = true
  /\ fnmatch "airdb_1.[0-9].?_x64.dmg" "airdb_1.2.0_x64.dmg" = true
  /\ fnmatch "airdb_[!0-9]*" "airdb_1.2.0_x64.dmg" = false
  /\ fnmatch "a[b" "a[b" = true.
Proof. repeat split. Qed.

(** The command lines of the usage note and some that are refused. *)
Example parse_args_examples :
  parse_args ["--version"; "0.2.0"; "--channel"; "stable"]
  = Parsed "0.2.0" "stable" "0.1.0" None None "update-manifest.json"
  /\ parse_args ["--version=0.2.0"; "--changelog"; "one"; "two";
                 "--bundle-dir"; "target/release/bundle"]
     = Parsed "0.2.0" "stable" "0.1.0" (Some ["one"; "two"])
              (Some "target/release/bundle") "update-manifest.json"
  /\ parse_args [] = ParseExit 2
  /\ parse_args ["--version"] = ParseExit 2
  /\ parse_args ["--version"; "0.2.0"; "stray"] = ParseExit 2
  /\ parse_args ["--c"; "beta"; "--version"; "0.2.0"] = ParseExit 2.
Proof. repeat split. Qed.

(** A bare [--] is no value of an option and is left over; a word that
    reads as a negative number is a value. *)
Example parse_args_value_examples :
  parse_args ["--version"; "--"; "0.2.0"] = ParseExit 2
  /\ parse_args ["--version"; "0.2.0"; "--"] = ParseExit 2
  /\ parse_args ["--version"; "0.2.0"; "--changelog"; "one"; "--"; "two"]
     = ParseExit 2
  /\ parse_args ["--version"; "-1"]
     = Parsed "-1" "stable" "0.1.0" None None "update-manifest.json"
  /\ parse_args ["--version"; "-x"] = ParseExit 2.
Proof. repeat split. Qed.

(** The version a command line gives is that of its last [--version]. *)
Example version_given_examples :
  version_given ["--version"; "0.2.0"] None = Some "0.2.0"
  /\ version_given ["--ver=0.2.0"; "--channel"; "beta"] None = Some "0.2.0"
  /\ version_given ["--version"; "0.1.0"; "--version"; "0.2.0"] None
     = Some "0.2.0"
  /\ version_given ["--channel"; "beta"] None = None.
Proof. repeat split. Qed.

(* ================================================================== *)
(** ** The streaming hash equals the one-shot digest *)
(* ================================================================== *)

Section Streaming.

Local Open Scope nat_scope.

Lemma blocks_app_l (n : nat) (l r : list byte) :
  64 * n <= List.length l ->
  SHA256.blocks n (l ++ r) = SHA256.blocks n l.
Proof.
  revert l; induction n as [|n IH]; intros l Hl; [reflexivity|].
  cbn [SHA256.blocks].
  rewrite firstn_app, skipn_app.
  replace (64 - List.length l) with 0 by lia.
  rewrite firstn_O, skipn_O, app_nil_r.
  f_equal. apply IH. rewrite length_skipn. lia.
Qed.

Lemma blocks_split (n m : nat) (l : list byte) :
  SHA256.blocks (n + m) l
  = (SHA256.blocks n l ++ SHA256.blocks m (skipn (64 * n) l))%list.
Proof.
  revert l; induction n as [|n IH]; intros l.
  - reflexivity.
  - cbn [SHA256.blocks Nat.add app]. rewrite IH, skipn_skipn.
    now replace (64 * S n) with (64 * n + 64) by lia.
Qed.

(** Splitting the pending bytes of a hasher at a block boundary. *)
Lemma absorb_split (hv : SHA256.regs) (l r : list byte) :
  let q := List.length l / 64 in
  let rest := (skipn (64 * q) l ++ r)%list in
  fold_left SHA256.compress
    (SHA256.blocks (List.length (l ++ r) / 64) (l ++ r)) hv
  = fold_left SHA256.compress
      (SHA256.blocks (List.length rest / 64) rest)
      (fold_left SHA256.compress (SHA256.blocks q l) hv)
  /\ skipn (64 * (List.length (l ++ r) / 64)) (l ++ r)
     = skipn (64 * (List.length rest / 64)) rest.
Proof.
  intros q rest.
  assert (Hq : 64 * q <= List.length l)
    by (subst q; apply Nat.Div0.mul_div_le).
  assert (Hrest : rest = skipn (64 * q) (l ++ r)).
  { subst rest. rewrite skipn_app.
    replace (64 * q - List.length l) with 0 by lia. now rewrite skipn_O. }
  assert (Hlen : List.length (l ++ r) = List.length rest + q * 64).
  { rewrite Hrest, length_skipn, length_app. lia. }
  assert (Hcount : List.length (l ++ r) / 64 = q + List.length rest / 64).
  { rewrite Hlen, Nat.div_add by lia. lia. }
  rewrite Hcount. split.
  - rewrite blocks_split, fold_left_app, blocks_app_l by exact Hq.
    now rewrite <- Hrest.
  - transitivity (skipn (64 * (List.length rest / 64)) (skipn (64 * q) (l ++ r))).
    + rewrite skipn_skipn. f_equal. lia.
    + now rewrite <- Hrest.
Qed.

(** [h.update(a); h.update(b)] is [h.update(a + b)]. *)
Lemma update_app (st : hasher) (a b : list byte) :
  update (update st a) b = update st (a ++ b).
Proof.
  unfold update; cbn [h_regs h_buf h_len].
  destruct (absorb_split (h_regs st) (h_buf st ++ a) b) as [Hr Hb].
  rewrite <- app_assoc in Hr, Hb.
  rewrite Hr, Hb, (length_app a b). f_equal. lia.
Qed.

(** A fresh object fed a whole message yields the one-shot digest. *)
Lemma digest_update_new (msg : list byte) :
  digest (update sha256_new msg) = SHA256.digest_of msg.
Proof.
  unfold digest, update, SHA256.digest_of, sha256_new;
    cbn [h_regs h_buf h_len app Nat.add].
  destruct (absorb_split SHA256.init_regs msg
              (SHA256.padding (List.length msg))) as [Hr _].
  now rewrite Hr.
Qed.

Lemma skipn_length_firstn {A : Type} (n : nat) (l : list A) :
  skipn (List.length (firstn n l)) l = skipn n l.
Proof.
  revert l; induction n as [|n IH]; intros [|x l]; cbn; auto.
Qed.

(** The read loop absorbs exactly the bytes from the position on. *)
Lemma feed_absorbs (n : nat) (data : list byte) :
  0 < n ->
  forall (fuel pos : nat) (seen : list byte),
    List.length (skipn pos data) < fuel ->
    feed fuel n (FileObj data pos) (update sha256_new seen)
    = update sha256_new (seen ++ skipn pos data).
Proof.
  intros Hn fuel; induction fuel as [|fuel IH]; intros pos seen Hfuel; [lia|].
  cbn [feed read fo_data fo_pos].
  assert (Hnext : skipn (pos + List.length (firstn n (skipn pos data))) data
                  = skipn n (skipn pos data)).
  { rewrite Nat.add_comm, <- skipn_skipn. apply skipn_length_firstn. }
  assert (Hsplit := firstn_skipn n (skipn pos data)).
  destruct (firstn n (skipn pos data)) as [|c chunk] eqn:Hchunk.
  - assert (Hnil : skipn pos data = []).
    { destruct (skipn pos data) as [|x xs]; [reflexivity|].
      destruct n; [lia | discriminate]. }
    now rewrite Hnil, app_nil_r.
  - rewrite update_app, IH.
    + now rewrite Hnext, <- app_assoc, Hsplit.
    + rewrite Hnext. rewrite <- Hsplit in Hfuel.
      rewrite length_app in Hfuel. cbn in Hfuel. lia.
Qed.

(** [calculate_sha256] with any positive chunk size returns the digest of
    the whole content. *)
Lemma calculate_sha256_chunked_correct (n : nat) (data : list byte) :
  0 < n ->
  calculate_sha256_chunked n (File data) = Ok (sha256_hex data).
Proof.
  intros Hn. unfold calculate_sha256_chunked, hexdigest, sha256_hex.
  change sha256_new with (update sha256_new []) at 1.
  rewrite (feed_absorbs n data Hn) by (cbn [skipn]; lia).
  cbn [skipn app]. now rewrite digest_update_new.
Qed.

Lemma calculate_sha256_correct (data : list byte) :
  calculate_sha256 (File data) = Ok (sha256_hex data).
Proof. apply calculate_sha256_chunked_correct. lia. Qed.

End Streaming.

(* ================================================================== *)
(** ** The fuel of [translate] is enough *)
(* ================================================================== *)

Lemma until_close_shorter (cs body after : list ascii) :
  until_close cs = Some (body, after) ->
  (List.length after < List.length cs)%nat.
Proof.
  revert body after; induction cs as [|c rest IH]; intros body after; cbn;
    [discriminate|].
  destruct (Ascii.eqb c "]").
  - intros [= _ <-]. lia.
  - destruct (until_close rest) as [[b a]|]; [|discriminate].
    intros [= _ <-]. specialize (IH b a eq_refl). lia.
Qed.

Lemma bracket_shorter (cs after : list ascii) (cls : gtok) :
  bracket cs = Some (cls, after) ->
  (List.length after < List.length cs)%nat.
Proof.
  unfold bracket.
  set (s1 := match cs with "!"%char :: r => (true, r) | _ => (false, cs) end).
  assert (H1 : (List.length (snd s1) <= List.length cs)%nat).
  { subst s1. destruct cs as [|c r]; cbn; [lia|].
    destruct (Ascii.eqb_spec c "!") as [->|Hne]; cbn; [lia|].
    destruct c as [[] [] [] [] [] [] [] []]; cbn; try lia. }
  destruct s1 as [neg cs1]. cbn [snd] in H1.
  set (s2 := match cs1 with "]"%char :: r => (["]"%char], r) | _ => ([], cs1) end).
  assert (H2 : (List.length (snd s2) <= List.length cs1)%nat).
  { subst s2. destruct cs1 as [|c r]; cbn; [lia|].
    destruct c as [[] [] [] [] [] [] [] []]; cbn; lia. }
  destruct s2 as [lead cs2]. cbn [snd] in H2.
  destruct (until_close cs2) as [[body a]|] eqn:Hc; [|discriminate].
  intros [= _ <-]. apply until_close_shorter in Hc. lia.
Qed.

(** Beyond the length of the pattern, more fuel changes nothing. *)
Lemma translate_fuel (f1 : nat) :
  forall (f2 : nat) (pat : list ascii),
    (List.length pat <= f1)%nat -> (List.length pat <= f2)%nat ->
    translate f1 pat = translate f2 pat.
Proof.
  induction f1 as [|f1 IH]; intros f2 pat H1 H2.
  - destruct pat; [|cbn in H1; lia]. now destruct f2.
  - destruct pat as [|c rest]; [now destruct f2|].
    destruct f2 as [|f2]; [cbn in H2; lia|].
    cbn in H1, H2. cbn [translate].
    assert (Hrest : translate f1 rest = translate f2 rest)
      by (apply IH; lia).
    destruct (Ascii.eqb c "*"); [now rewrite Hrest|].
    destruct (Ascii.eqb c "?"); [now rewrite Hrest|].
    destruct (Ascii.eqb c "["); [|now rewrite Hrest].
    destruct (bracket rest) as [[cls after]|] eqn:Hb; [|now rewrite Hrest].
    apply bracket_shorter in Hb. f_equal. apply IH; lia.
Qed.

(* ================================================================== *)
(** ** Dictionaries *)
(* ================================================================== *)

Lemma dict_get_In (k : string) (v : pyval) (d : dict) :
  dict_get k d = Some v -> In (k, v) d.
Proof.
  induction d as [|[k' v'] d IH]; cbn; [discriminate|].
  destruct (String.eqb_spec k k') as [->|_].
  - intros [= ->]. now left.
  - intros H. right. now apply IH.
Qed.

Lemma dict_set_In (k k' : string) (v v' : pyval) (d : dict) :
  In (k', v') (dict_set k v d) -> (k' = k /\ v' = v) \/ In (k', v') d.
Proof.
  induction d as [|[k0 v0] d IH]; cbn.
  - intros [[= <- <-]|[]]. now left.
  - destruct (String.eqb_spec k k0) as [->|_]; cbn.
    + intros [[= <- <-]|H]; [now left | right; now right].
    + intros [H|H]; [right; now left|].
      destruct (IH H) as [?|?]; [now left | right; now right].
Qed.

Lemma dict_get_set_same (k : string) (v : pyval) (d : dict) :
  dict_get k (dict_set k v d) = Some v.
Proof.
  induction d as [|[k0 v0] d IH]; cbn.
  - now rewrite String.eqb_refl.
  - destruct (String.eqb_spec k k0) as [->|Hne]; cbn.
    + now rewrite String.eqb_refl.
    + destruct (String.eqb_spec k k0); [contradiction | exact IH].
Qed.

(* ================================================================== *)
(** ** What the Locator records *)
(* ================================================================== *)

Lemma entries_from_weaken (pfs pfs' : list platform) fs bundle_dir version d :
  incl pfs pfs' ->
  entries_from pfs fs bundle_dir version d ->
  entries_from pfs' fs bundle_dir version d.
Proof.
  intros Hi H k v Hin. destruct (H k v Hin) as (pf & file & Hpf & rest).
  exists pf, file. split; [now apply Hi | exact rest].
Qed.

Lemma scan_files_entries (pf : platform) (version : string)
      (files : list loc) (artifacts artifacts' : dict) :
  scan_files pf version files artifacts = Ok artifacts' ->
  artifacts' = artifacts
  \/ exists file record,
       In file files /\ accepts pf (suffix (name file)) = true
       /\ artifact_record version file = Ok record
       /\ artifacts' = dict_set (key pf) record artifacts.
Proof.
  induction files as [|file rest IH]; cbn [scan_files].
  - intros [= <-]. now left.
  - destruct (accepts pf (suffix (name file))) eqn:Hacc.
    + destruct (artifact_record version file) as [record|e] eqn:Hrec;
        cbn [bind]; [|discriminate].
      intros [= <-]. right. exists file, record. cbn. auto.
    + intros H. destruct (IH H) as [->|(f & r & Hin & rest')]; [now left|].
      right. exists f, r. cbn. tauto.
Qed.

Lemma scan_patterns_entries (pf : platform) (pfs : list platform)
      (version : string) (fs : node) (bundle_dir : path) (pats : list string) :
  In pf pfs ->
  incl pats (patterns pf version) ->
  forall artifacts artifacts',
    entries_from pfs fs bundle_dir version artifacts ->
    scan_patterns pf version fs bundle_dir pats artifacts = Ok artifacts' ->
    entries_from pfs fs bundle_dir version artifacts'.
Proof.
  intros Hpf. induction pats as [|pattern rest IH]; intros Hincl a a' Hinv;
    cbn [scan_patterns].
  - now intros [= <-].
  - destruct (glob fs bundle_dir pattern) as [files|e] eqn:Hglob;
      cbn [bind]; [|discriminate].
    destruct (scan_files pf version files a) as [a1|e] eqn:Hscan;
      cbn [bind]; [|discriminate].
    apply IH; [intros x Hx; apply Hincl; now right|].
    destruct (scan_files_entries _ _ _ _ _ Hscan)
      as [->|(file & record & Hin & Hacc & Hrec & ->)]; [exact Hinv|].
    intros k v Hkv. apply dict_set_In in Hkv as [[-> ->]|Hold].
    + exists pf, file. repeat split; auto.
      exists pattern, files. repeat split; auto. apply Hincl. now left.
    + now apply Hinv.
Qed.


(** The invariant of [find_artifacts]. *)
Lemma find_artifacts_entries (fs : node) (bundle_dir : path)
      (version : string) (artifacts : dict) :
  find_artifacts fs bundle_dir version = Ok artifacts ->
  entries_from platforms fs bundle_dir version artifacts.
Proof.
  unfold find_artifacts, scan_platform.
  destruct (scan_patterns linux _ _ _ _ _) as [a1|e] eqn:H1;
    cbn [bind]; [|discriminate].
  destruct (scan_patterns windows _ _ _ _ _) as [a2|e] eqn:H2;
    cbn [bind]; [|discriminate].
  intros H3.
  assert (I0 : entries_from platforms fs bundle_dir version [])
    by (intros k v []).
  assert (I1 := scan_patterns_entries linux platforms version fs bundle_dir _
                  (or_introl eq_refl) (incl_refl _) _ _ I0 H1).
  assert (I2 := scan_patterns_entries windows platforms version fs bundle_dir _
                  (or_intror (or_introl eq_refl)) (incl_refl _) _ _ I1 H2).
  exact (scan_patterns_entries macos platforms version fs bundle_dir _
           (or_intror (or_intror (or_introl eq_refl))) (incl_refl _) _ _ I2 H3).
Qed.

(** The shape of a record, read off [artifact_record]. *)
Lemma artifact_record_inv (version : string) (file : loc) (record : pyval) :
  artifact_record version file = Ok record ->
  exists data,
    loc_node file = File data
    /\ record = record_of version (name file) data.
Proof.
  unfold artifact_record.
  destruct (loc_node file) as [data|entries] eqn:Hnode.
  - rewrite calculate_sha256_correct. cbn [bind]. intros [= <-].
    exists data. split; reflexivity.
  - cbn. discriminate.
Qed.

(** The inner loop records the first accepted file of the listing. *)
Lemma scan_files_first (pf : platform) (version : string) (files : list loc)
      (artifacts : dict) :
  scan_files pf version files artifacts
  = match first_accepted pf files with
    | Some file =>
        record <- artifact_record version file ;;
        Ok (dict_set (key pf) record artifacts)
    | None => Ok artifacts
    end.
Proof.
  unfold first_accepted.
  induction files as [|file rest IH]; cbn [scan_files find]; [reflexivity|].
  now destruct (accepts pf (suffix (name file))).
Qed.

(** The outer loop goes on after a record has been written: when the last
    pattern has an accepted match, that match is what the platform's key
    holds in the end, whatever the earlier patterns matched. *)
Lemma last_pattern_wins (pf : platform) (version : string) (fs : node)
      (bundle_dir : path) (earlier : list string) (pattern : string)
      (files : list loc) (file : loc) :
  glob fs bundle_dir pattern = Ok files ->
  first_accepted pf files = Some file ->
  forall artifacts artifacts',
    scan_patterns pf version fs bundle_dir (earlier ++ [pattern])%list artifacts
    = Ok artifacts' ->
    exists record,
      artifact_record version file = Ok record
      /\ dict_get (key pf) artifacts' = Some record.
Proof.
  intros Hglob Hfirst.
  induction earlier as [|p ps IH]; intros a a'; cbn [app scan_patterns].
  - rewrite Hglob; cbn [bind]. rewrite scan_files_first, Hfirst.
    destruct (artifact_record version file) as [record|e]; cbn [bind];
      [|discriminate].
    intros [= <-]. exists record. split; [reflexivity|].
    apply dict_get_set_same.
  - destruct (glob fs bundle_dir p) as [fp|e]; cbn [bind]; [|discriminate].
    destruct (scan_files pf version fp a) as [a1|e]; cbn [bind]; [|discriminate].
    apply IH.
Qed.

(** A version with [**] in it makes every pattern invalid: the Locator
    fails before it lists anything. *)
Lemma find_artifacts_double_star (fs : node) (bundle_dir : path) :
  find_artifacts fs bundle_dir "**" = Raise ValueError.
Proof. reflexivity. Qed.

(* ------------------------------------------------------------------ *)
(** *** An accepted file of a platform always leaves an entry *)

Lemma dict_set_has_key (k k' : string) (v : pyval) (d : dict) :
  k = k' \/ has_key k d -> has_key k (dict_set k' v d).
Proof.
  intros [->|[v0 H]].
  - exists v. apply dict_get_set_same.
  - unfold has_key.
    induction d as [|[k0 v1] d IH]; cbn in *; [discriminate|].
    destruct (String.eqb_spec k' k0) as [->|Hne]; cbn.
    + destruct (String.eqb k k0); eauto.
    + destruct (String.eqb k k0); eauto.
Qed.

Lemma scan_files_keeps (pf : platform) (version : string) (files : list loc)
      (a a' : dict) (k : string) :
  scan_files pf version files a = Ok a' -> has_key k a -> has_key k a'.
Proof.
  intros H Hk. destruct (scan_files_entries _ _ _ _ _ H)
    as [->|(f & r & _ & _ & _ & ->)]; [exact Hk|].
  apply dict_set_has_key. now right.
Qed.

Lemma scan_patterns_keeps (pf : platform) (version : string) (fs : node)
      (dir : path) (pats : list string) (k : string) :
  forall a a',
    scan_patterns pf version fs dir pats a = Ok a' ->
    has_key k a -> has_key k a'.
Proof.
  induction pats as [|p ps IH]; intros a a'; cbn [scan_patterns].
  - now intros [= <-].
  - destruct (glob fs dir p) as [files|e]; cbn [bind]; [|discriminate].
    destruct (scan_files pf version files a) as [a1|e] eqn:Hs; cbn [bind];
      [|discriminate].
    intros H Hk. apply (IH a1 a' H). now apply (scan_files_keeps _ _ _ _ _ _ Hs).
Qed.

Lemma scan_patterns_records (pf : platform) (version : string) (fs : node)
      (dir : path) (pattern : string) (files : list loc) (file : loc) :
  glob fs dir pattern = Ok files ->
  In file files ->
  accepts pf (suffix (name file)) = true ->
  forall pats a a',
    In pattern pats ->
    scan_patterns pf version fs dir pats a = Ok a' ->
    has_key (key pf) a'.
Proof.
  intros Hglob Hin Hacc pats.
  induction pats as [|p ps IH]; intros a a' Hp; [destruct Hp|].
  cbn [scan_patterns].
  destruct (glob fs dir p) as [fp|e] eqn:Hgp; cbn [bind]; [|discriminate].
  destruct (scan_files pf version fp a) as [a1|e] eqn:Hs; cbn [bind];
    [|discriminate].
  intros Hrest. destruct Hp as [->|Hp]; [|now apply (IH a1 a' Hp)].
  apply (scan_patterns_keeps _ _ _ _ _ _ _ _ Hrest).
  rewrite Hglob in Hgp. injection Hgp as <-.
  rewrite scan_files_first in Hs.
  destruct (first_accepted pf files) as [f|] eqn:Hf.
  - destruct (artifact_record version f) as [r|e]; cbn [bind] in Hs;
      [|discriminate].
    injection Hs as <-. apply dict_set_has_key. now left.
  - unfold first_accepted in Hf.
    apply (find_none _ _ Hf) in Hin. cbn in Hin. congruence.
Qed.

(** When the Locator returns, every platform with a located file has an
    entry. *)
Lemma located_platform_has_entry (fs : node) (dir : path) (version : string)
      (artifacts : dict) (pf : platform) (file : loc) :
  In pf platforms ->
  located pf fs dir version file ->
  find_artifacts fs dir version = Ok artifacts ->
  has_key (key pf) artifacts.
Proof.
  intros Hpf (pattern & files & Hpat & Hglob & Hin & Hacc).
  unfold find_artifacts, scan_platform.
  destruct (scan_patterns linux _ _ _ _ _) as [a1|e] eqn:H1;
    cbn [bind]; [|discriminate].
  destruct (scan_patterns windows _ _ _ _ _) as [a2|e] eqn:H2;
    cbn [bind]; [|discriminate].
  intros H3.
  destruct Hpf as [<-|[<-|[<-|[]]]].
  - apply (scan_patterns_keeps _ _ _ _ _ _ _ _ H3).
    apply (scan_patterns_keeps _ _ _ _ _ _ _ _ H2).
    exact (scan_patterns_records _ _ _ _ _ _ _ Hglob Hin Hacc _ _ _ Hpat H1).
  - apply (scan_patterns_keeps _ _ _ _ _ _ _ _ H3).
    exact (scan_patterns_records _ _ _ _ _ _ _ Hglob Hin Hacc _ _ _ Hpat H2).
  - exact (scan_patterns_records _ _ _ _ _ _ _ Hglob Hin Hacc _ _ _ Hpat H3).
Qed.

(* ================================================================== *)
(** ** The Assembler *)
(* ================================================================== *)

(** Every manifest returned is the base manifest with some mapping put
    under ["artifacts"]: the empty one when the Locator was not run. *)
Lemma generate_manifest_inv now fs version channel min_version changelog
      bundle_dir m :
  generate_manifest now fs version channel min_version changelog bundle_dir
  = Ok m ->
  exists artifacts,
    m = dict_set "artifacts" (PDict artifacts)
          (base_manifest now version channel min_version changelog)
    /\ (artifacts = []
        \/ exists dir, bundle_dir = Some dir /\ exists_ fs dir = true
             /\ find_artifacts fs dir version = Ok artifacts).
Proof.
  unfold generate_manifest. fold (base_manifest now version channel min_version changelog).
  destruct bundle_dir as [dir|].
  - destruct (exists_ fs dir) eqn:Hex.
    + destruct (find_artifacts fs dir version) as [a|e] eqn:Hfind;
        cbn [bind]; [|discriminate].
      intros [= <-]. exists a. split; [reflexivity|]. right. now exists dir.
    + intros [= <-]. exists []. split; [reflexivity | now left].
  - intros [= <-]. exists []. split; [reflexivity | now left].
Qed.

Lemma artifact_keys (fs : node) (dir : path) (version : string) (a : dict) :
  find_artifacts fs dir version = Ok a ->
  forall k, In k (dict_keys a) -> In k ["linux"; "windows"; "macos"].
Proof.
  intros Hfind k Hk. unfold dict_keys in Hk.
  apply in_map_iff in Hk as ([k' v] & <- & Hin).
  destruct (find_artifacts_entries _ _ _ _ Hfind k' v Hin)
    as (pf & _ & Hpf & -> & _).
  cbn in Hpf. cbn [fst].
  destruct Hpf as [<-|[<-|[<-|[]]]]; cbn; auto.
Qed.

(* ================================================================== *)
(** ** The parser and the required version *)
(* ================================================================== *)

Lemma span_suffix_forallb {A : Type} (f P : A -> bool) (l a b : list A) :
  span f l = (a, b) -> forallb P l = true -> forallb P b = true.
Proof.
  revert a b; induction l as [|x l IH]; intros a b; cbn.
  - now intros [= <- <-].
  - destruct (f x).
    + destruct (span f l) as [a' b'] eqn:Hs. intros [= <- <-] H.
      apply andb_prop in H as [_ H]. now apply (IH a' b').
    + now intros [= <- <-].
Qed.

Lemma span_suffix_existsb {A : Type} (f P : A -> bool) (l a b : list A) :
  span f l = (a, b) -> existsb P b = true -> existsb P l = true.
Proof.
  revert a b; induction l as [|x l IH]; intros a b; cbn.
  - now intros [= <- <-].
  - destruct (f x).
    + destruct (span f l) as [a' b'] eqn:Hs. intros [= <- <-] H.
      rewrite (IH a' b' eq_refl H). apply orb_true_r.
    + now intros [= <- <-].
Qed.

(** What [take_values] takes and what it leaves. *)
Lemma take_values_inv (many : bool) (rest rest' : list (word_class * string))
      (vals : list string) :
  take_values many rest = Some (vals, rest') ->
  exists v r2 more,
    rest = (WArg, v) :: r2
    /\ (if many then span is_arg r2 else ([], r2)) = (more, rest')
    /\ vals = v :: map snd more.
Proof.
  unfold take_values.
  destruct rest as [|[[| |o e] v] r2]; try discriminate.
  destruct (if many then span is_arg r2 else ([], r2)) as [more r3] eqn:Hs.
  intros [= <- <-]. now exists v, r2, more.
Qed.

(** What [take_values] leaves is a tail of what it was given. *)
Lemma take_values_rest (many : bool) (rest rest' : list (word_class * string))
      (vals : list string) (P : word_class * string -> bool) :
  take_values many rest = Some (vals, rest') ->
  (forallb P rest = true -> forallb P rest' = true)
  /\ (existsb P rest' = true -> existsb P rest = true)
  /\ (List.length rest' < List.length rest)%nat.
Proof.
  intros H. apply take_values_inv in H as (v & r2 & more & -> & Hs & _).
  assert (Hlen : forall (f : word_class * string -> bool) l a b,
             span f l = (a, b) -> (List.length b <= List.length l)%nat).
  { intros f l. induction l as [|x l IH]; intros a b; cbn.
    - intros [= <- <-]. cbn. lia.
    - destruct (f x).
      + destruct (span f l) as [a' b'] eqn:Hs'. intros [= <- <-].
        specialize (IH a' b' eq_refl). lia.
      + intros [= <- <-]. cbn. lia. }
  destruct many.
  - repeat split.
    + cbn [forallb]. intros H. apply andb_prop in H as [_ H].
      now apply (span_suffix_forallb _ P _ _ _ Hs).
    + cbn [existsb]. intros H.
      rewrite (span_suffix_existsb _ P _ _ _ Hs H). apply orb_true_r.
    + apply Hlen in Hs. cbn. lia.
  - injection Hs as _ <-. repeat split.
    + cbn [forallb]. intros H. now apply andb_prop in H as [_ H].
    + cbn [existsb]. intros H. rewrite H. apply orb_true_r.
    + cbn. lia.
Qed.


Lemma opt_eq_help (o : opt) : o = OHelp \/ o <> OHelp.
Proof. destruct o; (now left) || (right; discriminate). Qed.

(** One turn of the second pass at an option that stores a value. *)
Lemma consume_storing (fuel : nat) (o : opt) (e : option string) (w : string)
      (rest : list (word_class * string)) (extras : bool) (ns : namespace) :
  o <> OHelp ->
  consume (S fuel) ((WOpt (Some o) e, w) :: rest) extras ns
  = match e with
    | Some text => consume fuel rest extras (store o [text] ns)
    | None =>
        match take_values (match o with OChangelog => true | _ => false end)
                          rest with
        | Some (vals, rest') => consume fuel rest' extras (store o vals ns)
        | None => ParseExit 2
        end
    end.
Proof. destruct o, e; intros H; try reflexivity; contradiction. Qed.


Lemma classify_all_words (argv : list string) :
  forall (dashed : bool) (ws : list (word_class * string)),
    classify_all dashed argv = Some ws ->
    (forallb (fun w => negb (names_version w)) argv = true ->
     forallb (fun c => negb (selects_version c)) ws = true)
    /\ (existsb selects_help ws = true -> existsb names_help argv = true).
Proof.
  induction argv as [|w rest IH]; intros dashed ws; cbn [classify_all].
  - intros [= <-]. split; auto.
  - destruct dashed.
    + destruct (classify_all true rest) as [cs|] eqn:Hcs; [|discriminate].
      intros [= <-]. destruct (IH true cs Hcs) as [Ha He]. split.
      * cbn. intros H. apply andb_prop in H as [_ H]. auto.
      * cbn. intros H. rewrite (He H). apply orb_true_r.
    + destruct (String.eqb w "--").
      * destruct (classify_all true rest) as [cs|] eqn:Hcs; [|discriminate].
        intros [= <-]. destruct (IH true cs Hcs) as [Ha He]. split.
        -- cbn. intros H. apply andb_prop in H as [_ H]. auto.
        -- cbn. intros H. rewrite (He H). apply orb_true_r.
      * destruct (classify w) as [c|] eqn:Hc; [|discriminate].
        destruct (classify_all false rest) as [cs|] eqn:Hcs; [|discriminate].
        intros [= <-]. destruct (IH false cs Hcs) as [Ha He]. split.
        -- cbn [forallb]. unfold names_version at 1, selects_version at 1.
           rewrite Hc. cbn [fst]. intros H. apply andb_prop in H as [H1 H2].
           rewrite (Ha H2), andb_true_r. exact H1.
        -- cbn [existsb]. unfold names_help at 1, selects_help at 1.
           rewrite Hc. cbn [fst]. intros H. apply orb_prop in H as [H|H].
           ++ now rewrite H.
           ++ rewrite (He H). apply orb_true_r.
Qed.


(** Beyond the number of words, more fuel changes nothing: [parse_args]
    never stops for want of it. *)
Lemma consume_fuel (f1 : nat) :
  forall (f2 : nat) (ws : list (word_class * string)) (extras : bool)
         (ns : namespace),
    (List.length ws < f1)%nat -> (List.length ws < f2)%nat ->
    consume f1 ws extras ns = consume f2 ws extras ns.
Proof.
  induction f1 as [|f1 IH]; intros f2 ws extras ns H1 H2; [lia|].
  destruct f2 as [|f2]; [lia|].
  destruct ws as [|[c w] rest]; [reflexivity|].
  cbn [List.length] in H1, H2.
  destruct c as [| |[o|] e];
    try (cbn [consume]; apply IH; lia).
  destruct (opt_eq_help o) as [->|Hhelp]; [reflexivity|].
  rewrite !consume_storing by exact Hhelp.
  destruct e as [text|]; [apply IH; lia|].
  destruct (take_values _ rest) as [[vals rest']|] eqn:Htake; [|reflexivity].
  destruct (take_values_rest _ _ _ _ (fun _ => true) Htake) as (_ & _ & Hlen).
  apply IH; lia.
Qed.

(** A command line that gives only a version, as a word that reads as a
    value, is parsed and the defaults are passed on. *)
Lemma main_version_only now fs cwd (v : string) :
  classify v = Some WArg -> v <> "--" ->
  main now fs cwd ["--version"; v]
  = Written "update-manifest.json"
      (base_manifest now v (Some "stable") (Some "0.1.0") None).
Proof.
  intros Hc Hv. unfold main, parse_args.
  cbn [classify_all]. 
  change (String.eqb "--version" "--") with false. cbv iota.
  change (classify "--version") with (Some (WOpt (Some OVersion) None)).
  destruct (String.eqb_spec v "--") as [->|_]; [contradiction|].
  rewrite Hc. reflexivity.
Qed.

(* ------------------------------------------------------------------ *)
(** *** The version a successful parse holds *)







(* ================================================================== *)
(** ** Properties of the manifest *)
(* ================================================================== *)

(** C4. Every document [generate_manifest] returns has exactly the
    top-level keys version, channel, release_date, min_supported_version,
    changelog, artifacts and signature; [artifacts] is a mapping whose keys
    are among linux, windows and macos; [signature] is the empty string. *)
Theorem manifest_shape now fs version channel min_version changelog
        bundle_dir m :
  generate_manifest now fs version channel min_version changelog bundle_dir
  = Ok m ->
  dict_keys m = manifest_keys
  /\ (exists artifacts,
        dict_get "artifacts" m = Some (PDict artifacts)
        /\ forall k, In k (dict_keys artifacts) ->
                     In k ["linux"; "windows"; "macos"])
  /\ dict_get "signature" m = Some (PStr "").
Proof.
  intros H. apply generate_manifest_inv in H as (a & -> & Ha).
  split; [reflexivity|]. split; [|reflexivity].
  exists a. split; [reflexivity|].
  destruct Ha as [->|(dir & _ & _ & Hfind)].
  - intros k [].
  - now apply artifact_keys with (fs := fs) (dir := dir) (version := version).
Qed.

Lemma manifest_shape_witness :
  generate_manifest some_day bundle_with_pairs "1.2.0" None None None
                    (Some ["bundle"])
  = Ok manifest_with_pairs
  /\ (dict_keys manifest_with_pairs = manifest_keys
      /\ (exists artifacts,
            dict_get "artifacts" manifest_with_pairs = Some (PDict artifacts)
            /\ forall k, In k (dict_keys artifacts) ->
                         In k ["linux"; "windows"; "macos"])
      /\ dict_get "signature" manifest_with_pairs = Some (PStr "")).
Proof.
  assert (H : generate_manifest some_day bundle_with_pairs "1.2.0" None None
                None (Some ["bundle"]) = Ok manifest_with_pairs)
    by (vm_compute; reflexivity).
  split; [exact H | exact (manifest_shape _ _ _ _ _ _ _ _ H)].
Defined.

(** C6. When no bundle directory is given, or the one given does not
    exist, generation succeeds and [artifacts] is the empty mapping.  The
    statement holds for every version, also for those on which the Locator
    would fail, so the Locator has not been run. *)
Theorem missing_bundle_gives_empty_artifacts now fs version channel
        min_version changelog bundle_dir :
  bundle_dir = None
  \/ (exists dir, bundle_dir = Some dir /\ exists_ fs dir = false) ->
  exists m,
    generate_manifest now fs version channel min_version changelog bundle_dir
    = Ok m
    /\ dict_get "artifacts" m = Some (PDict [])
    /\ dict_keys m = manifest_keys.
Proof.
  intros [->|(dir & -> & Hex)]; unfold generate_manifest; [|rewrite Hex];
    eexists; repeat split.
Qed.

Lemma missing_bundle_gives_empty_artifacts_witness :
  (Some ["release"] = None
   \/ (exists dir, Some ["release"] = Some dir
                   /\ exists_ bundle_with_pairs dir = false))
  /\ exists m,
       generate_manifest some_day bundle_with_pairs "**" None None None
                         (Some ["release"]) = Ok m
       /\ dict_get "artifacts" m = Some (PDict [])
       /\ dict_keys m = manifest_keys.
Proof.
  assert (H : Some ["release"] = None
              \/ (exists dir, Some ["release"] = Some dir
                              /\ exists_ bundle_with_pairs dir = false))
    by (right; exists ["release"]; split; reflexivity).
  split; [exact H|].
  exact (missing_bundle_gives_empty_artifacts some_day bundle_with_pairs "**"
           None None None (Some ["release"]) H).
Defined.

(** C7. The url of every record is the fixed release base, the version,
    a slash and the record's own filename. *)
Theorem artifact_url_template fs bundle_dir version artifacts k record :
  find_artifacts fs bundle_dir version = Ok artifacts ->
  dict_get k artifacts = Some record ->
  exists filename,
    item "filename" record = Some (PStr filename)
    /\ item "url" record
       = Some (PStr ("https://github.com/Codeenk/airdb/releases/download/v"
                     ++ version ++ "/" ++ filename)).
Proof.
  intros Hfind Hget. apply dict_get_In in Hget.
  destruct (find_artifacts_entries _ _ _ _ Hfind k record Hget)
    as (pf & file & _ & _ & _ & Hrec).
  apply artifact_record_inv in Hrec as (data & _ & ->).
  exists (name file). split; reflexivity.
Qed.

Lemma artifact_url_template_witness :
  find_artifacts bundle_appimage_only ["bundle"] "1.2.0"
  = Ok artifacts_appimage_only
  /\ dict_get "linux" artifacts_appimage_only
     = Some (record_of "1.2.0" "airdb_1.2.0_amd64.AppImage" (repeat x61 1000))
  /\ exists filename,
       item "filename"
         (record_of "1.2.0" "airdb_1.2.0_amd64.AppImage" (repeat x61 1000))
       = Some (PStr filename)
       /\ item "url"
            (record_of "1.2.0" "airdb_1.2.0_amd64.AppImage" (repeat x61 1000))
          = Some (PStr ("https://github.com/Codeenk/airdb/releases/download/v"
                        ++ "1.2.0" ++ "/" ++ filename)).
Proof.
  assert (H : find_artifacts bundle_appimage_only ["bundle"] "1.2.0"
              = Ok artifacts_appimage_only) by (vm_compute; reflexivity).
  split; [exact H|]. split; [reflexivity|].
  exact (artifact_url_template _ _ _ _ "linux" _ H eq_refl).
Defined.

(** C8. Two runs on the same arguments and the same file system, at
    whatever times, both fail alike or both return manifests that agree
    on artifacts, version, channel, min_supported_version and changelog. *)
Theorem manifest_reproducible now1 now2 fs version channel min_version
        changelog bundle_dir :
  match generate_manifest now1 fs version channel min_version changelog
                          bundle_dir,
        generate_manifest now2 fs version channel min_version changelog
                          bundle_dir with
  | Ok m1, Ok m2 =>
      map (fun k => dict_get k m1) reproducible_keys
      = map (fun k => dict_get k m2) reproducible_keys
  | Raise e1, Raise e2 => e1 = e2
  | _, _ => False
  end.
Proof.
  unfold generate_manifest.
  destruct bundle_dir as [dir|]; [|reflexivity].
  destruct (exists_ fs dir); [|reflexivity].
  destruct (find_artifacts fs dir version); reflexivity.
Qed.

(** C9. With only a version given the manifest has channel ["stable"],
    min_supported_version ["0.1.0"] and an empty changelog.  In every
    call, whatever else is given or left out, each of channel, minimum
    version and changelog is the value given when one is given, and its
    default when it is left out. *)
Theorem defaults_and_supplied_values now fs version :
  (exists m,
     generate_manifest now fs version None None None None = Ok m
     /\ dict_get "version" m = Some (PStr version)
     /\ dict_get "channel" m = Some (PStr "stable")
     /\ dict_get "min_supported_version" m = Some (PStr "0.1.0")
     /\ dict_get "changelog" m = Some (PList []))
  /\ forall channel min_version changelog bundle_dir m,
       generate_manifest now fs version channel min_version changelog
                         bundle_dir = Ok m ->
       dict_get "version" m = Some (PStr version)
       /\ (forall c, channel = Some c ->
                     dict_get "channel" m = Some (PStr c))
       /\ (channel = None -> dict_get "channel" m = Some (PStr "stable"))
       /\ (forall v, min_version = Some v ->
                     dict_get "min_supported_version" m = Some (PStr v))
       /\ (min_version = None ->
           dict_get "min_supported_version" m = Some (PStr "0.1.0"))
       /\ (forall entries, changelog = Some entries ->
                           dict_get "changelog" m
                           = Some (PList (map PStr entries)))
       /\ (changelog = None -> dict_get "changelog" m = Some (PList [])).
Proof.
  split.
  - eexists. repeat split.
  - intros channel min_version changelog bundle_dir m H.
    apply generate_manifest_inv in H as (a & -> & _).
    repeat split.
    + now intros c ->.
    + now intros ->.
    + now intros v ->.
    + now intros ->.
    + intros entries ->. cbn. now destruct entries.
    + now intros ->.
Qed.

Lemma defaults_and_supplied_values_witness :
  generate_manifest some_day bundle_with_pairs "1.2.0" (Some "beta") None
                    (Some ["Faster sync"; "Fixes"]) None
  = Ok (base_manifest some_day "1.2.0" (Some "beta") None
                      (Some ["Faster sync"; "Fixes"]))
  /\ Some "beta" = Some "beta"
  /\ dict_get "channel"
       (base_manifest some_day "1.2.0" (Some "beta") None
                      (Some ["Faster sync"; "Fixes"]))
     = Some (PStr "beta")
  /\ @None string = None
  /\ dict_get "min_supported_version"
       (base_manifest some_day "1.2.0" (Some "beta") None
                      (Some ["Faster sync"; "Fixes"]))
     = Some (PStr "0.1.0")
  /\ Some ["Faster sync"; "Fixes"] = Some ["Faster sync"; "Fixes"]
  /\ dict_get "changelog"
       (base_manifest some_day "1.2.0" (Some "beta") None
                      (Some ["Faster sync"; "Fixes"]))
     = Some (PList (map PStr ["Faster sync"; "Fixes"])).
Proof.
  assert (H : generate_manifest some_day bundle_with_pairs "1.2.0"
                (Some "beta") None (Some ["Faster sync"; "Fixes"]) None
              = Ok (base_manifest some_day "1.2.0" (Some "beta") None
                                  (Some ["Faster sync"; "Fixes"])))
    by reflexivity.
  destruct (proj2 (defaults_and_supplied_values some_day bundle_with_pairs
                     "1.2.0")
              (Some "beta") None (Some ["Faster sync"; "Fixes"]) None _ H)
    as (_ & Hc & _ & _ & Hm & Hl & _).
  split; [exact H|].
  split; [reflexivity|]. split; [exact (Hc "beta" eq_refl)|].
  split; [reflexivity|]. split; [exact (Hm eq_refl)|].
  split; [reflexivity|]. exact (Hl _ eq_refl).
Defined.

(** C10. An empty changelog list gives the same manifest as no changelog
    at all; the changelog field is the list given, in order, and the empty
    list when none is given. *)
Theorem falsy_changelog_is_empty now fs version channel min_version
        bundle_dir :
  generate_manifest now fs version channel min_version (Some []) bundle_dir
  = generate_manifest now fs version channel min_version None bundle_dir
  /\ forall changelog m,
       generate_manifest now fs version channel min_version changelog
                         bundle_dir = Ok m ->
       dict_get "changelog" m
       = Some (PList (map PStr (match changelog with
                                | Some entries => entries
                                | None => []
                                end))).
Proof.
  split; [reflexivity|].
  intros changelog m H. apply generate_manifest_inv in H as (a & -> & _).
  cbn. now destruct changelog as [[|e es]|].
Qed.

Lemma falsy_changelog_is_empty_witness :
  generate_manifest some_day bundle_with_pairs "1.2.0" None None
                    (Some ["Faster sync"; "Fixes"]) None
  = Ok (base_manifest some_day "1.2.0" None None (Some ["Faster sync"; "Fixes"]))
  /\ dict_get "changelog"
       (base_manifest some_day "1.2.0" None None (Some ["Faster sync"; "Fixes"]))
     = Some (PList [PStr "Faster sync"; PStr "Fixes"]).
Proof.
  split; [reflexivity|].
  exact (proj2 (falsy_changelog_is_empty some_day bundle_with_pairs "1.2.0"
                  None None None)
           (Some ["Faster sync"; "Fixes"]) _ eq_refl).
Defined.

(* ================================================================== *)
(** ** The Locator on concrete bundles *)
(* ================================================================== *)

(** C1. On a bundle holding both Windows installers and both macOS images
    of version 1.2.0, each first pattern finds its file, yet the records
    kept are those of the second patterns: the [.msi] package and the
    aarch64 image.  The search does not stop at the first accepted match. *)
Theorem later_pattern_replaces_earlier :
  matched_names bundle_with_pairs ["bundle"] "**/airdb_1.2.0_x64-setup.exe"
  = Ok ["airdb_1.2.0_x64-setup.exe"]
  /\ matched_names bundle_with_pairs ["bundle"] "**/airdb_1.2.0_x64.dmg"
     = Ok ["airdb_1.2.0_x64.dmg"]
  /\ find_artifacts bundle_with_pairs ["bundle"] "1.2.0"
     = Ok [ ("windows",
             record_of "1.2.0" "airdb_1.2.0_x64_en-US.msi" (bytes_of "package"));
            ("macos",
             record_of "1.2.0" "airdb_1.2.0_aarch64.dmg" (bytes_of "arm")) ].
Proof. repeat split; vm_compute; reflexivity. Qed.

(** C2. On a bundle whose only artifact is [airdb_1.2.0_amd64.deb], the
    second linux pattern finds the file, but its suffix is not the one the
    linux check accepts and the mapping returned has no linux entry. *)
Theorem deb_only_bundle_has_no_linux_entry :
  matched_names bundle_deb_only ["bundle"] "**/airdb_1.2.0_amd64.deb"
  = Ok ["airdb_1.2.0_amd64.deb"]
  /\ accepts linux (suffix "airdb_1.2.0_amd64.deb") = false
  /\ find_artifacts bundle_deb_only ["bundle"] "1.2.0" = Ok [].
Proof. repeat split; vm_compute; reflexivity. Qed.

(** C5. Every record the Locator returns is that of a located regular
    file: its sha256 is the SHA-256 digest of the file's whole content, in
    hexadecimal, and its size is the number of bytes; reading the file in
    chunks of any positive size gives that same digest. *)
Theorem locator_checksum_and_size fs bundle_dir version artifacts k record :
  find_artifacts fs bundle_dir version = Ok artifacts ->
  dict_get k artifacts = Some record ->
  exists pf file data,
    k = key pf
    /\ located pf fs bundle_dir version file
    /\ loc_node file = File data
    /\ item "filename" record = Some (PStr (name file))
    /\ item "sha256" record = Some (PStr (sha256_hex data))
    /\ item "size" record = Some (PInt (Z.of_nat (List.length data)))
    /\ forall chunk_size, (0 < chunk_size)%nat ->
         calculate_sha256_chunked chunk_size (loc_node file)
         = Ok (sha256_hex data).
Proof.
  intros Hfind Hget. apply dict_get_In in Hget.
  destruct (find_artifacts_entries _ _ _ _ Hfind k record Hget)
    as (pf & file & _ & Hk & Hloc & Hrec).
  apply artifact_record_inv in Hrec as (data & Hnode & ->).
  exists pf, file, data. repeat split; auto.
  intros n Hn. rewrite Hnode. now apply calculate_sha256_chunked_correct.
Qed.

Lemma locator_checksum_and_size_witness :
  find_artifacts bundle_appimage_only ["bundle"] "1.2.0"
  = Ok artifacts_appimage_only
  /\ dict_get "linux" artifacts_appimage_only
     = Some (record_of "1.2.0" "airdb_1.2.0_amd64.AppImage" (repeat x61 1000))
  /\ exists pf file data,
       "linux" = key pf
       /\ located pf bundle_appimage_only ["bundle"] "1.2.0" file
       /\ loc_node file = File data
       /\ item "filename"
            (record_of "1.2.0" "airdb_1.2.0_amd64.AppImage" (repeat x61 1000))
          = Some (PStr (name file))
       /\ item "sha256"
            (record_of "1.2.0" "airdb_1.2.0_amd64.AppImage" (repeat x61 1000))
          = Some (PStr (sha256_hex data))
       /\ item "size"
            (record_of "1.2.0" "airdb_1.2.0_amd64.AppImage" (repeat x61 1000))
          = Some (PInt (Z.of_nat (List.length data)))
       /\ forall chunk_size, (0 < chunk_size)%nat ->
            calculate_sha256_chunked chunk_size (loc_node file)
            = Ok (sha256_hex data).
Proof.
  assert (H : find_artifacts bundle_appimage_only ["bundle"] "1.2.0"
              = Ok artifacts_appimage_only) by (vm_compute; reflexivity).
  split; [exact H|]. split; [reflexivity|].
  exact (locator_checksum_and_size _ _ _ _ "linux" _ H eq_refl).
Defined.

(* ================================================================== *)
(** ** The required version *)
(* ================================================================== *)




(* ================================================================== *)
(** ** Further properties of the Locator *)
(* ================================================================== *)

Lemma dict_get_set_other (k k' : string) (v : pyval) (d : dict) :
  k <> k' -> dict_get k (dict_set k' v d) = dict_get k d.
Proof.
  intros Hne. induction d as [|[k0 v0] d IH]; cbn.
  - destruct (String.eqb_spec k k'); [contradiction | reflexivity].
  - destruct (String.eqb_spec k' k0) as [->|Hk0]; cbn.
    + destruct (String.eqb_spec k k0); [contradiction | reflexivity].
    + now rewrite IH.
Qed.

(** A scan writes under its own key only. *)
Lemma scan_patterns_other_keys (pf : platform) (version : string) (fs : node)
      (dir : path) (pats : list string) (k : string) :
  k <> key pf ->
  forall a a',
    scan_patterns pf version fs dir pats a = Ok a' ->
    dict_get k a' = dict_get k a.
Proof.
  intros Hk. induction pats as [|p ps IH]; intros a a'; cbn [scan_patterns].
  - now intros [= <-].
  - destruct (glob fs dir p) as [files|e]; cbn [bind]; [|discriminate].
    destruct (scan_files pf version files a) as [a1|e] eqn:Hs; cbn [bind];
      [|discriminate].
    intros H. rewrite (IH a1 a' H).
    destruct (scan_files_entries _ _ _ _ _ Hs)
      as [->|(f & r & _ & _ & _ & ->)]; [reflexivity|].
    now apply dict_get_set_other.
Qed.

Lemma scan_patterns_holds (pf : platform) (version : string) (fs : node)
      (dir : path) (pats : list string) :
  forall acc a a',
    holds pf version acc a ->
    scan_patterns pf version fs dir pats a = Ok a' ->
    holds pf version (chosen_among pf fs dir pats acc) a'.
Proof.
  induction pats as [|p ps IH]; intros acc a a' Hacc;
    cbn [scan_patterns chosen_among].
  - now intros [= <-].
  - destruct (glob fs dir p) as [files|e]; cbn [bind]; [|discriminate].
    destruct (scan_files pf version files a) as [a1|e] eqn:Hs; cbn [bind];
      [|discriminate].
    apply IH. rewrite scan_files_first in Hs.
    destruct (first_accepted pf files) as [f|]; [|now injection Hs as <-].
    destruct (artifact_record version f) as [r|e] eqn:Hr; cbn [bind] in Hs;
      [|discriminate].
    injection Hs as <-.
    apply artifact_record_inv in Hr as (data & Hnode & ->).
    exists data. split; [exact Hnode | apply dict_get_set_same].
Qed.

Lemma holds_other_scan (pf pf' : platform) (version : string) (fs : node)
      (dir : path) (sel : option loc) (a a' : dict) :
  key pf <> key pf' ->
  scan_patterns pf' version fs dir (patterns pf' version) a = Ok a' ->
  holds pf version sel a -> holds pf version sel a'.
Proof.
  intros Hk Hs. unfold holds.
  now rewrite (scan_patterns_other_keys _ _ _ _ _ _ Hk _ _ Hs).
Qed.

Lemma find_artifacts_steps (fs : node) (dir : path) (version : string)
      (artifacts : dict) :
  find_artifacts fs dir version = Ok artifacts ->
  exists a1 a2,
    scan_patterns linux version fs dir (patterns linux version) [] = Ok a1
    /\ scan_patterns windows version fs dir (patterns windows version) a1 = Ok a2
    /\ scan_patterns macos version fs dir (patterns macos version) a2
       = Ok artifacts.
Proof.
  unfold find_artifacts, scan_platform.
  destruct (scan_patterns linux _ _ _ _ _) as [a1|e]; cbn [bind]; [|discriminate].
  destruct (scan_patterns windows _ _ _ _ _) as [a2|e] eqn:H2; cbn [bind];
    [|discriminate].
  intros H3. now exists a1, a2.
Qed.

Lemma find_artifacts_holds (fs : node) (dir : path) (version : string)
      (artifacts : dict) (pf : platform) :
  find_artifacts fs dir version = Ok artifacts ->
  In pf platforms ->
  holds pf version (chosen pf fs dir version) artifacts.
Proof.
  intros Hfind Hpf.
  destruct (find_artifacts_steps _ _ _ _ Hfind) as (a1 & a2 & H1 & H2 & H3).
  unfold chosen.
  destruct Hpf as [<-|[<-|[<-|[]]]].
  - apply (holds_other_scan linux macos _ _ _ _ _ _ ltac:(discriminate) H3).
    apply (holds_other_scan linux windows _ _ _ _ _ _ ltac:(discriminate) H2).
    apply (scan_patterns_holds _ _ _ _ _ None [] a1); [reflexivity | exact H1].
  - apply (holds_other_scan windows macos _ _ _ _ _ _ ltac:(discriminate) H3).
    apply (scan_patterns_holds _ _ _ _ _ None a1 a2); [|exact H2].
    cbn. now rewrite (scan_patterns_other_keys linux _ _ _ _ "windows"
                        ltac:(discriminate) _ _ H1).
  - apply (scan_patterns_holds _ _ _ _ _ None a2 artifacts); [|exact H3].
    cbn. rewrite (scan_patterns_other_keys windows _ _ _ _ "macos"
                    ltac:(discriminate) _ _ H2).
    now rewrite (scan_patterns_other_keys linux _ _ _ _ "macos"
                   ltac:(discriminate) _ _ H1).
Qed.

(** The order of the keys. *)
Lemma dict_keys_set (k : string) (v : pyval) (d : dict) :
  dict_keys (dict_set k v d)
  = if existsb (String.eqb k) (dict_keys d) then dict_keys d
    else (dict_keys d ++ [k])%list.
Proof.
  unfold dict_keys.
  induction d as [|[k0 v0] d IH]; cbn; [reflexivity|].
  destruct (String.eqb_spec k k0) as [->|Hne]; cbn; [reflexivity|].
  rewrite IH. now destruct (existsb (String.eqb k) (map fst d)).
Qed.

Lemma scan_patterns_keys (pf : platform) (version : string) (fs : node)
      (dir : path) (pats : list string) :
  forall a a',
    scan_patterns pf version fs dir pats a = Ok a' ->
    dict_keys a' = dict_keys a
    \/ (existsb (String.eqb (key pf)) (dict_keys a) = false
        /\ dict_keys a' = (dict_keys a ++ [key pf])%list).
Proof.
  induction pats as [|p ps IH]; intros a a'; cbn [scan_patterns].
  - intros [= <-]. now left.
  - destruct (glob fs dir p) as [files|e]; cbn [bind]; [|discriminate].
    destruct (scan_files pf version files a) as [a1|e] eqn:Hs; cbn [bind];
      [|discriminate].
    intros H. specialize (IH a1 a' H).
    destruct (scan_files_entries _ _ _ _ _ Hs)
      as [->|(f & r & _ & _ & _ & ->)]; [exact IH|].
    rewrite dict_keys_set in IH.
    destruct (existsb (String.eqb (key pf)) (dict_keys a)) eqn:Hin.
    + destruct IH as [IH|[Hno _]]; [now left | congruence].
    + destruct IH as [IH|[Hno IH]]; [right; now split|].
      rewrite existsb_app in Hno. cbn in Hno.
      rewrite String.eqb_refl, orb_true_r in Hno. discriminate.
Qed.

(* ------------------------------------------------------------------ *)
(** *** When the Locator returns *)

Lemma scan_patterns_ok_iff (pf : platform) (version : string) (fs : node)
      (dir : path) (pats : list string) :
  forall a,
    (exists a', scan_patterns pf version fs dir pats a = Ok a')
    <-> (forall pattern, In pattern pats ->
           exists files,
             glob fs dir pattern = Ok files
             /\ match first_accepted pf files with
                | Some file => is_dir (loc_node file) = false
                | None => True
                end).
Proof.
  induction pats as [|p ps IH]; intros a; cbn [scan_patterns].
  - split; [intros _ q [] | intros _; now exists a].
  - split.
    + intros [a' H].
      destruct (glob fs dir p) as [files|e] eqn:Hg; cbn [bind] in H;
        [|discriminate].
      destruct (scan_files pf version files a) as [a1|e] eqn:Hs;
        cbn [bind] in H; [|discriminate].
      intros q [<-|Hq].
      * exists files. split; [exact Hg|].
        rewrite scan_files_first in Hs.
        destruct (first_accepted pf files) as [f|]; [|exact I].
        destruct (artifact_record version f) as [r|e] eqn:Hr;
          cbn [bind] in Hs; [|discriminate].
        apply artifact_record_inv in Hr as (data & Hnode & _).
        now rewrite Hnode.
      * apply (proj1 (IH a1)); [now exists a' | exact Hq].
    + intros Hall.
      destruct (Hall p (or_introl eq_refl)) as (files & Hg & Hf).
      rewrite Hg; cbn [bind]. rewrite scan_files_first.
      destruct (first_accepted pf files) as [f|].
      * unfold artifact_record.
        destruct (loc_node f) as [data|es] eqn:Hnode; [|discriminate].
        rewrite calculate_sha256_correct; cbn [bind].
        apply (proj2 (IH _)). intros q Hq. apply Hall. now right.
      * cbn [bind]. apply (proj2 (IH _)). intros q Hq. apply Hall. now right.
Qed.

(* ------------------------------------------------------------------ *)
(** *** The digest as text *)

Lemma hex_of_bytes_length (bs : list byte) :
  String.length (hex_of_bytes bs) = (2 * List.length bs)%nat.
Proof. induction bs as [|b bs IH]; cbn [hex_of_bytes String.length List.length]; lia. Qed.

Lemma hex_of_bytes_lower (bs : list byte) :
  forallb is_hex_lower (list_ascii_of_string (hex_of_bytes bs)) = true.
Proof.
  induction bs as [|b bs IH]; [reflexivity|].
  cbn [hex_of_bytes list_ascii_of_string forallb]. rewrite IH.
  now destruct b.
Qed.

Lemma regs_bytes_length (s : SHA256.regs) :
  List.length (SHA256.regs_bytes s) = 32%nat.
Proof. reflexivity. Qed.

Lemma sha256_hex_shape (data : list byte) :
  String.length (sha256_hex data) = 64%nat
  /\ forallb is_hex_lower (list_ascii_of_string (sha256_hex data)) = true.
Proof.
  unfold sha256_hex, SHA256.digest_of. split.
  - now rewrite hex_of_bytes_length, regs_bytes_length.
  - apply hex_of_bytes_lower.
Qed.

(** The Locator returns exactly when every platform is readable. *)
Lemma find_artifacts_ok_iff (fs : node) (dir : path) (version : string) :
  (exists artifacts, find_artifacts fs dir version = Ok artifacts)
  <-> (forall pf, In pf platforms -> readable pf fs dir version).
Proof.
  unfold find_artifacts, scan_platform, readable. split.
  - intros [arts H] pf Hpf.
    destruct (scan_patterns linux _ _ _ _ _) as [a1|e] eqn:H1;
      cbn [bind] in H; [|discriminate].
    destruct (scan_patterns windows _ _ _ _ _) as [a2|e] eqn:H2;
      cbn [bind] in H; [|discriminate].
    destruct Hpf as [<-|[<-|[<-|[]]]];
      eapply (proj1 (scan_patterns_ok_iff _ _ _ _ _ _)); eauto.
  - intros Hall.
    destruct (proj2 (scan_patterns_ok_iff linux version fs dir
                       (patterns linux version) [])
                (Hall linux (or_introl eq_refl))) as [a1 H1].
    rewrite H1; cbn [bind].
    destruct (proj2 (scan_patterns_ok_iff windows version fs dir
                       (patterns windows version) a1)
                (Hall windows (or_intror (or_introl eq_refl)))) as [a2 H2].
    rewrite H2; cbn [bind].
    exact (proj2 (scan_patterns_ok_iff macos version fs dir
                    (patterns macos version) a2)
             (Hall macos (or_intror (or_intror (or_introl eq_refl))))).
Qed.


(* ================================================================== *)
(** ** Plain versions: the patterns name files exactly *)
(* ================================================================== *)

Lemma list_ascii_app (a b : string) :
  list_ascii_of_string (a ++ b)
  = (list_ascii_of_string a ++ list_ascii_of_string b)%list.
Proof. induction a as [|c a IH]; cbn; [reflexivity | now rewrite IH]. Qed.

Lemma split_slash_plain (cs cur : list ascii) :
  forallb plain_char cs = true ->
  split_slash cs cur = [string_of_list_ascii (rev cur ++ cs)].
Proof.
  revert cur; induction cs as [|c cs IH]; intros cur H; cbn [split_slash].
  - now rewrite app_nil_r.
  - cbn [forallb] in H. apply andb_prop in H as [Hc Hcs].
    destruct (Ascii.eqb_spec c "/") as [->|_]; [discriminate Hc|].
    rewrite IH by exact Hcs. cbn [rev]. now rewrite <- app_assoc.
Qed.

Lemma plain_no_wildcard (cs : list ascii) :
  forallb plain_char cs = true ->
  contains_any ["*"%char; "?"%char; "["%char] cs = false
  /\ has_double_star cs = false.
Proof.
  induction cs as [|c cs IH]; [now split|].
  cbn [forallb]. intros H. apply andb_prop in H as [Hc Hcs].
  destruct (IH Hcs) as [IH1 IH2]. split.
  - cbn [contains_any]. rewrite IH1, orb_false_r.
    unfold plain_char in Hc. cbn [existsb] in *.
    apply negb_true_iff in Hc. apply orb_false_elim in Hc as [_ Hc].
    exact Hc.
  - assert (Hstar : Ascii.eqb c "*" = false).
    { unfold plain_char in Hc. cbn [existsb] in Hc.
      apply negb_true_iff in Hc. apply orb_false_elim in Hc as [_ Hc].
      now apply orb_false_elim in Hc as [Hc _]. }
    destruct c as [[] [] [] [] [] [] [] []]; try discriminate Hstar;
      exact IH2.
Qed.

(** The pattern of a plain name: everything named so, at any depth. *)
Lemma glob_plain (fs : node) (dir : path) (nm : string) :
  plain nm = true -> nm <> "" -> nm <> "." ->
  glob fs dir ("**/" ++ nm)
  = Ok (match resolve fs dir with
        | Some d =>
            if is_dir (loc_node d)
            then select_from [Recursive; Precise nm] d
            else []
        | None => []
        end).
Proof.
  intros Hplain Hne Hdot. unfold glob, pattern_parts.
  assert (Hsplit : split_slash (list_ascii_of_string ("**/" ++ nm)) []
                   = ["**"; nm]).
  { cbn. rewrite split_slash_plain by exact Hplain.
    cbn. now rewrite string_of_list_ascii_of_string. }
  rewrite Hsplit. cbn [filter].
  change (String.eqb "**" "" || String.eqb "**" ".")%bool with false.
  cbn [negb].
  destruct (String.eqb_spec nm "") as [?|_]; [contradiction|].
  destruct (String.eqb_spec nm ".") as [?|_]; [contradiction|].
  cbn [orb negb make_selectors].
  change (make_selector "**") with (Ok Recursive). cbn [bind].
  destruct (plain_no_wildcard _ Hplain) as [Hw Hs].
  unfold make_selector, is_wildcard_pattern.
  rewrite Hs, Hw.
  destruct (String.eqb_spec nm "**") as [->|_]; [discriminate Hplain|].
  reflexivity.
Qed.

Lemma unique_incl (ps : list loc) :
  forall seen x, In x (unique seen ps) -> In x ps.
Proof.
  induction ps as [|p ps IH]; intros seen x; cbn [unique]; [auto|].
  destruct (existsb (path_eqb (loc_path p)) seen).
  - intros H. right. now apply (IH seen).
  - intros [<-|H]; [now left | right; now apply (IH _ _ H)].
Qed.

Lemma path_eqb_eq (p q : path) : path_eqb p q = true <-> p = q.
Proof. unfold path_eqb. destruct (list_eq_dec string_dec p q); split; auto; discriminate. Qed.

(** [unique] drops a place only when one with the same path is kept. *)
Lemma unique_keeps_path (ps : list loc) :
  forall seen x,
    In x ps ->
    existsb (path_eqb (loc_path x)) seen = false ->
    exists y, In y (unique seen ps) /\ loc_path y = loc_path x.
Proof.
  induction ps as [|p ps IH]; intros seen x Hin Hseen; [destruct Hin|].
  cbn [unique].
  destruct (list_eq_dec string_dec (loc_path p) (loc_path x)) as [Heq|Hne].
  - rewrite Heq, Hseen. exists p. split; [now left | exact Heq].
  - destruct Hin as [->|Hin]; [contradiction|].
    destruct (existsb (path_eqb (loc_path p)) seen).
    + now apply IH.
    + destruct (IH (loc_path p :: seen) x Hin) as (y & Hy & Hp).
      * cbn [existsb]. rewrite Hseen, orb_false_r.
        destruct (path_eqb (loc_path x) (loc_path p)) eqn:E; [|reflexivity].
        apply path_eqb_eq in E. congruence.
      * exists y. split; [now right | exact Hp].
Qed.

Lemma child_path (nm : string) (p c : loc) :
  child nm p = Some c -> loc_path c = (loc_path p ++ [nm])%list.
Proof.
  unfold child. destruct (loc_node p) as [|entries]; [discriminate|].
  destruct (String.eqb nm "..").
  - destruct (loc_up p); now intros [= <-].
  - destruct (String.eqb nm "."); [now intros [= <-]|].
    destruct (lookup nm entries); [now intros [= <-] | discriminate].
Qed.

Lemma select_precise (nm : string) (p : loc) :
  select_from [Precise nm] p
  = match child nm p with Some c => [c] | None => [] end.
Proof. cbn. now destruct (child nm p). Qed.

(** Everything the pattern of a plain name finds bears that name. *)
Lemma select_plain_names (nm : string) (d f : loc) :
  In f (select_from [Recursive; Precise nm] d) -> name f = nm.
Proof.
  cbn [select_from]. intros H. apply unique_incl in H.
  apply in_flat_map in H as (l & _ & Hl).
  change (In f (select_from [Precise nm] l)) in Hl.
  rewrite select_precise in Hl.
  destruct (child nm l) as [c|] eqn:Hc; [|destruct Hl].
  destruct Hl as [<-|[]]. unfold name.
  rewrite (child_path _ _ _ Hc). apply last_last.
Qed.

Lemma lookup_In (nm : string) (entries : list (string * node)) (n : node) :
  lookup nm entries = Some n -> In (nm, n) entries.
Proof.
  induction entries as [|[nm' n'] es IH]; cbn; [discriminate|].
  destruct (String.eqb_spec nm nm') as [->|_].
  - intros [= ->]. now left.
  - intros H. right. now apply IH.
Qed.

(** A directory reached by entry names is one of those [**] visits. *)
Lemma iterate_directories_walk (sub : path) :
  forall d l,
    forallb normal sub = true ->
    walk d sub = Some l ->
    is_dir (loc_node l) = true ->
    In l (iterate_directories (loc_path d) (loc_up d) (loc_node d)).
Proof.
  induction sub as [|c rest IH]; intros d l Hn Hw Hdir.
  - injection Hw as <-. destruct d as [p up n]. cbn.
    destruct n; now left.
  - cbn [forallb] in Hn. apply andb_prop in Hn as [Hc Hrest].
    cbn [walk] in Hw. destruct (child c d) as [d1|] eqn:Hchild; [|discriminate].
    assert (Hd1 : is_dir (loc_node d1) = true).
    { destruct rest as [|c2 rest'].
      - injection Hw as <-. exact Hdir.
      - cbn [walk] in Hw. unfold child in Hw.
        destruct (loc_node d1); [discriminate | reflexivity]. }
    specialize (IH d1 l Hrest Hw Hdir).
    unfold child in Hchild. unfold normal in Hc.
    destruct (loc_node d) as [|entries] eqn:Hnode; [discriminate|].
    destruct (String.eqb c ".."); [discriminate Hc|].
    destruct (String.eqb c "."); [discriminate Hc|].
    destruct (lookup c entries) as [n|] eqn:Hl; [|discriminate].
    injection Hchild as <-. cbn [loc_path loc_up loc_node] in *.
    cbn [iterate_directories]. right.
    apply in_flat_map. exists (c, n). split; [now apply lookup_In|].
    cbn [fst snd]. destruct n as [|es]; [discriminate Hd1|].
    exact IH.
Qed.

(* ------------------------------------------------------------------ *)
(** *** The suffix of a name that ends in an extension *)

Lemma rfind_dot_nodot (cs : list ascii) :
  forall i found,
    forallb (fun c => negb (Ascii.eqb c ".")) cs = true ->
    rfind_dot cs i found = found.
Proof.
  induction cs as [|c cs IH]; intros i found H; [reflexivity|].
  cbn [forallb] in H. apply andb_prop in H as [Hc Hcs].
  cbn [rfind_dot]. apply negb_true_iff in Hc. rewrite Hc. now apply IH.
Qed.

Lemma rfind_dot_last (a e : list ascii) :
  forall i found,
    forallb (fun c => negb (Ascii.eqb c ".")) e = true ->
    rfind_dot (a ++ "."%char :: e) i found = Some (i + List.length a)%nat.
Proof.
  induction a as [|c a IH]; intros i found He.
  - cbn [app rfind_dot]. rewrite Ascii.eqb_refl.
    rewrite rfind_dot_nodot by exact He. cbn. f_equal. lia.
  - cbn [app rfind_dot]. rewrite IH by exact He. cbn. f_equal. lia.
Qed.

Lemma suffix_ext (nm : string) (a e : list ascii) :
  list_ascii_of_string nm = (a ++ "."%char :: e)%list ->
  a <> [] -> e <> [] ->
  forallb (fun c => negb (Ascii.eqb c ".")) e = true ->
  suffix nm = string_of_list_ascii ("."%char :: e).
Proof.
  intros Hnm Ha He Hdots. unfold suffix. rewrite Hnm.
  rewrite rfind_dot_last by exact Hdots. cbn [Nat.add].
  assert (La : (0 < List.length a)%nat) by (destruct a; [contradiction | cbn; lia]).
  assert (Le : (0 < List.length e)%nat) by (destruct e; [contradiction | cbn; lia]).
  rewrite length_app. cbn [List.length].
  replace (Nat.ltb 0 (List.length a)) with true
    by (symmetry; apply Nat.ltb_lt; lia).
  replace (Nat.ltb (List.length a) (List.length a + S (List.length e) - 1))
    with true by (symmetry; apply Nat.ltb_lt; lia).
  cbn [andb]. rewrite skipn_app, skipn_all, Nat.sub_diag. reflexivity.
Qed.

(** The suffix of an artifact name is that of its literal ending. *)
Lemma artifact_name_suffix (version mid ext : string) :
  ext <> "" ->
  forallb (fun c => negb (Ascii.eqb c ".")) (list_ascii_of_string ext) = true ->
  suffix ("airdb_" ++ version ++ mid ++ "." ++ ext) = "." ++ ext.
Proof.
  intros He Hdots.
  rewrite (suffix_ext _
             (list_ascii_of_string ("airdb_" ++ version ++ mid))
             (list_ascii_of_string ext)).
  - cbn. now rewrite string_of_list_ascii_of_string.
  - rewrite !list_ascii_app. cbn. now rewrite <- !app_assoc.
  - discriminate.
  - destruct ext; [contradiction | discriminate].
  - exact Hdots.
Qed.

Lemma artifact_name_plain (version tail : string) :
  plain version = true -> plain tail = true ->
  plain ("airdb_" ++ version ++ tail) = true.
Proof.
  unfold plain. intros Hv Ht. rewrite !list_ascii_app, !forallb_app.
  now rewrite Hv, Ht.
Qed.

(** For a plain version a located file bears one of the names its
    platform's entry can carry. *)
Lemma located_plain_name (pf : platform) (fs : node) (dir : path)
      (version : string) (file : loc) :
  plain version = true ->
  In pf platforms ->
  located pf fs dir version file ->
  In (name file) (accepted_names (key pf) version).
Proof.
  intros Hv Hpf (pattern & files & Hpat & Hglob & Hin & Hacc).
  assert (Hname : forall tail,
             plain tail = true ->
             pattern = "**/airdb_" ++ version ++ tail ->
             name file = "airdb_" ++ version ++ tail).
  { intros tail Ht ->.
    change ("**/airdb_" ++ version ++ tail)
      with ("**/" ++ ("airdb_" ++ version ++ tail)) in Hglob.
    rewrite glob_plain in Hglob
      by (try discriminate; now apply artifact_name_plain).
    injection Hglob as <-.
    destruct (resolve fs dir) as [d|]; [|destruct Hin].
    destruct (is_dir (loc_node d)); [|destruct Hin].
    now apply select_plain_names in Hin. }
  destruct Hpf as [<-|[<-|[<-|[]]]]; cbn in Hpat;
    destruct Hpat as [Hp|[Hp|[]]]; symmetry in Hp;
    apply Hname in Hp; try reflexivity; cbn; auto.
  (* the [.deb] name does not pass the linux check *)
  exfalso. rewrite Hp in Hacc.
  change ("airdb_" ++ version ++ "_amd64.deb")
    with ("airdb_" ++ version ++ "_amd64" ++ "." ++ "deb") in Hacc.
  rewrite artifact_name_suffix in Hacc by (discriminate || reflexivity).
  discriminate Hacc.
Qed.

(** A file with a plain name, in a directory reached by entry names from
    the bundle directory, is among what its pattern finds. *)
Lemma plain_name_found (fs : node) (dir sub : path) (nm : string)
      (d l f : loc) :
  plain nm = true -> nm <> "" -> nm <> "." ->
  resolve fs dir = Some d ->
  forallb normal sub = true ->
  walk d sub = Some l ->
  child nm l = Some f ->
  exists files y,
    glob fs dir ("**/" ++ nm) = Ok files /\ In y files /\ name y = nm.
Proof.
  intros Hplain Hne Hdot Hres Hn Hw Hc.
  assert (Hl : is_dir (loc_node l) = true).
  { unfold child in Hc. destruct (loc_node l); [discriminate | reflexivity]. }
  assert (Hd : is_dir (loc_node d) = true).
  { destruct sub as [|c rest].
    - injection Hw as <-. exact Hl.
    - cbn [walk] in Hw. unfold child in Hw.
      destruct (loc_node d); [discriminate | reflexivity]. }
  rewrite glob_plain, Hres, Hd by assumption.
  assert (Hin : In f (flat_map (select_from [Precise nm])
                        (iterate_directories (loc_path d) (loc_up d)
                                             (loc_node d)))).
  { apply in_flat_map. exists l. split.
    - now apply iterate_directories_walk with (sub := sub).
    - rewrite select_precise, Hc. now left. }
  destruct (unique_keeps_path _ [] f Hin eq_refl) as (y & Hy & Hp).
  eexists. exists y. split; [reflexivity|]. split; [exact Hy|].
  unfold name. rewrite Hp, (child_path _ _ _ Hc). apply last_last.
Qed.

(* ================================================================== *)
(** ** The parser: what a successful parse holds *)
(* ================================================================== *)

Lemma take_values_nonempty (many : bool) (rest rest' : list (word_class * string))
      (vals : list string) :
  take_values many rest = Some (vals, rest') -> vals <> [].
Proof.
  intros H. apply take_values_inv in H as (v & r2 & more & _ & _ & ->).
  discriminate.
Qed.

(** A property of the namespace that every store allowed by [Q] keeps
    holds of the namespace a successful parse ends with. *)
Lemma consume_invariant (P : namespace -> Prop)
      (Q : word_class * string -> bool) :
  (forall o e w vals ns,
      Q (WOpt (Some o) e, w) = true -> vals <> [] ->
      P ns -> P (store o vals ns)) ->
  forall fuel ws extras ns,
    forallb Q ws = true -> P ns ->
    match namespace_of (consume fuel ws extras ns) with
    | Some ns' => P ns'
    | None => True
    end.
Proof.
  intros Hstore fuel.
  induction fuel as [|fuel IH]; intros ws extras ns Hws Hns; [exact I|].
  destruct ws as [|[c w] rest].
  - cbn [consume]. destruct ns as [[v|] ch mv cl bd out]; cbn; [|exact I].
    destruct extras; cbn; [exact I | exact Hns].
  - cbn [forallb] in Hws. apply andb_prop in Hws as [Hc Hrest].
    destruct c as [| |[o|] e]; try (cbn [consume]; now apply IH).
    destruct (opt_eq_help o) as [->|Hhelp].
    + cbn [consume]. destruct e as [e|]; [|exact I].
      now destruct (_ || _)%bool.
    + rewrite consume_storing by exact Hhelp.
      destruct e as [text|].
      * apply IH; [exact Hrest|].
        apply (Hstore o (Some text) w); [exact Hc | discriminate | exact Hns].
      * destruct (take_values _ rest) as [[vals rest']|] eqn:Htake; [|exact I].
        destruct (take_values_rest _ _ _ _ Q Htake) as (Hall & _ & _).
        apply IH; [now apply Hall|].
        apply (Hstore o None w); [exact Hc | | exact Hns].
        now apply take_values_nonempty in Htake.
Qed.

Lemma classify_all_selects (o : opt) (argv : list string) :
  forall (dashed : bool) (ws : list (word_class * string)),
    classify_all dashed argv = Some ws ->
    forallb (fun w => negb (names o w)) argv = true ->
    forallb (fun c => negb (selects o c)) ws = true.
Proof.
  induction argv as [|w rest IH]; intros dashed ws; cbn [classify_all].
  - now intros [= <-].
  - intros Hc Hall. cbn [forallb] in Hall. apply andb_prop in Hall as [Hw Hrest].
    destruct dashed.
    + destruct (classify_all true rest) as [cs|] eqn:Hcs; [|discriminate].
      injection Hc as <-. cbn. now apply (IH true cs Hcs).
    + destruct (String.eqb w "--").
      * destruct (classify_all true rest) as [cs|] eqn:Hcs; [|discriminate].
        injection Hc as <-. cbn. now apply (IH true cs Hcs).
      * destruct (classify w) as [c|] eqn:Hcw; [|discriminate].
        destruct (classify_all false rest) as [cs|] eqn:Hcs; [|discriminate].
        injection Hc as <-. cbn [forallb].
        rewrite (IH false cs Hcs Hrest), andb_true_r.
        unfold names in Hw. rewrite Hcw in Hw. exact Hw.
Qed.

Lemma store_other (o o' : opt) (vals : list string) (ns : namespace) :
  opt_eqb o o' = false ->
  match o with
  | OHelp => True
  | OVersion => ns_version (store o' vals ns) = ns_version ns
  | OChannel => ns_channel (store o' vals ns) = ns_channel ns
  | OMinVersion => ns_min_version (store o' vals ns) = ns_min_version ns
  | OChangelog => ns_changelog (store o' vals ns) = ns_changelog ns
  | OBundleDir => ns_bundle_dir (store o' vals ns) = ns_bundle_dir ns
  | OOutput => ns_output (store o' vals ns) = ns_output ns
  end.
Proof. destruct o, o'; cbn; intros H; try reflexivity; try discriminate; exact I. Qed.

(** A parse that succeeds leaves an option no word selects as it was in
    the initial namespace. *)
Lemma parse_args_keeps (o : opt) (proj : namespace -> Prop) (argv : list string) :
  (forall o' vals ns, opt_eqb o o' = false -> proj ns -> proj (store o' vals ns)) ->
  proj initial_namespace ->
  forallb (fun w => negb (names o w)) argv = true ->
  match namespace_of (parse_args argv) with
  | Some ns => proj ns
  | None => True
  end.
Proof.
  intros Hstore Hinit Hall. unfold parse_args.
  destruct (classify_all false argv) as [ws|] eqn:Hws; [|exact I].
  apply (consume_invariant proj (fun c => negb (selects o c))).
  - intros o' e w vals ns HQ _ Hp. apply Hstore; [|exact Hp].
    cbn in HQ. now apply negb_true_iff in HQ.
  - now apply (classify_all_selects o argv false).
  - exact Hinit.
Qed.

(** The statuses the parser exits with. *)
Lemma consume_exit (fuel : nat) :
  forall ws extras ns status,
    consume fuel ws extras ns = ParseExit status ->
    status = 2%nat \/ (status = 0%nat /\ existsb selects_help ws = true).
Proof.
  induction fuel as [|fuel IH]; intros ws extras ns status H.
  - injection H as <-. now left.
  - destruct ws as [|[c w] rest].
    + cbn [consume] in H. destruct (ns_version ns); [|injection H as <-; now left].
      destruct extras; [injection H as <-; now left | discriminate].
    + assert (Hlift : forall rest' ex ns',
                (existsb selects_help rest' = true ->
                 existsb selects_help rest = true) ->
                consume fuel rest' ex ns' = ParseExit status ->
                status = 2%nat
                \/ (status = 0%nat
                    /\ existsb selects_help ((c, w) :: rest) = true)).
      { intros rest' ex ns' Hex Hc.
        destruct (IH _ _ _ _ Hc) as [?|[? Hh]]; [now left | right].
        split; [assumption|]. cbn [existsb]. rewrite (Hex Hh).
        apply orb_true_r. }
      destruct c as [| |[o|] e]; try (cbn [consume] in H; now apply Hlift in H).
      destruct (opt_eq_help o) as [->|Hhelp].
      * cbn [consume] in H. destruct e as [e|].
        -- destruct (_ || _)%bool; injection H as <-;
             [now left | right; split; reflexivity].
        -- injection H as <-. right. split; reflexivity.
      * rewrite consume_storing in H by exact Hhelp.
        destruct e as [text|]; [now apply Hlift in H|].
        destruct (take_values _ rest) as [[vals rest']|] eqn:Htake;
          [|injection H as <-; now left].
        destruct (take_values_rest _ _ _ _ selects_help Htake) as (_ & Hex & _).
        now apply Hlift in H.
Qed.

Lemma parse_args_exit (argv : list string) (status : nat) :
  parse_args argv = ParseExit status ->
  status = 2%nat \/ (status = 0%nat /\ existsb names_help argv = true).
Proof.
  unfold parse_args.
  destruct (classify_all false argv) as [ws|] eqn:Hws;
    [|intros [= <-]; now left].
  intros H. destruct (consume_exit _ _ _ _ _ H) as [?|[? Hh]]; [now left|].
  right. split; [assumption|].
  now apply (proj2 (classify_all_words _ _ _ Hws)).
Qed.

(* ================================================================== *)
(** ** The date as text *)
(* ================================================================== *)

Lemma padded_digits (width bound : nat) :
  forallb (fun n => digits width (padded width n)) (seq 0 bound) = true ->
  forall n, (n < bound)%nat -> digits width (padded width n) = true.
Proof.
  intros H n Hn. rewrite forallb_forall in H. apply H.
  apply in_seq. lia.
Qed.

Lemma padded_two (n : nat) : (n < 100)%nat -> digits 2 (padded 2 n) = true.
Proof. apply padded_digits. vm_compute. reflexivity. Qed.

Lemma padded_four (n : nat) : (n < 10000)%nat -> digits 4 (padded 4 n) = true.
Proof. apply padded_digits. vm_compute. reflexivity. Qed.

(* ================================================================== *)
(** ** A bundle path that is no directory *)
(* ================================================================== *)

Lemma make_selectors_raise (parts : list string) (e : exn) :
  make_selectors parts = Raise e -> e = ValueError.
Proof.
  induction parts as [|part rest IH]; cbn [make_selectors]; [discriminate|].
  unfold make_selector.
  destruct (String.eqb part "**"); cbn [bind].
  - destruct (make_selectors rest) as [sels|e']; cbn [bind]; [discriminate|].
    intros [= <-]. now apply IH.
  - destruct (has_double_star _); cbn [bind]; [now intros [= <-]|].
    destruct (is_wildcard_pattern part); cbn [bind];
      (destruct (make_selectors rest) as [sels|e']; cbn [bind]; [discriminate|];
       intros [= <-]; now apply IH).
Qed.

Lemma glob_no_directory (fs : node) (dir : path) (pattern : string) :
  match resolve fs dir with
  | Some d => is_dir (loc_node d) = false
  | None => True
  end ->
  glob fs dir pattern = Ok [] \/ glob fs dir pattern = Raise ValueError.
Proof.
  intros H. unfold glob.
  destruct (make_selectors (pattern_parts pattern)) as [sels|e] eqn:Hs;
    cbn [bind].
  - left. destruct (resolve fs dir) as [d|]; [|reflexivity]. now rewrite H.
  - right. now rewrite (make_selectors_raise _ _ Hs).
Qed.

Lemma scan_patterns_no_directory (pf : platform) (version : string)
      (fs : node) (dir : path) (pats : list string) (a : dict) :
  match resolve fs dir with
  | Some d => is_dir (loc_node d) = false
  | None => True
  end ->
  scan_patterns pf version fs dir pats a = Ok a
  \/ scan_patterns pf version fs dir pats a = Raise ValueError.
Proof.
  intros H. induction pats as [|p ps IH]; cbn [scan_patterns]; [now left|].
  destruct (glob_no_directory fs dir p H) as [-> | ->]; cbn [bind scan_files];
    [exact IH | now right].
Qed.

(* ================================================================== *)
(** ** Further properties: the Locator *)
(* ================================================================== *)

(** X1. Every entry of the mapping is a dict with the keys url, sha256,
    size and filename, in that order; its sha256 is 64 lowercase
    hexadecimal digits and its size is not negative. *)
Theorem record_shape fs dir version artifacts k record :
  find_artifacts fs dir version = Ok artifacts ->
  dict_get k artifacts = Some record ->
  exists url sha size nm,
    record = PDict [ ("url", PStr url); ("sha256", PStr sha);
                     ("size", PInt size); ("filename", PStr nm) ]
    /\ String.length sha = 64%nat
    /\ forallb is_hex_lower (list_ascii_of_string sha) = true
    /\ (0 <= size)%Z.
Proof.
  intros Hfind Hget. apply dict_get_In in Hget.
  destruct (find_artifacts_entries _ _ _ _ Hfind k record Hget)
    as (pf & file & _ & _ & _ & Hrec).
  apply artifact_record_inv in Hrec as (data & _ & ->).
  destruct (sha256_hex_shape data) as [Hlen Hhex].
  unfold record_of. do 4 eexists. split; [reflexivity|].
  repeat split; auto. lia.
Qed.

Lemma record_shape_witness :
  find_artifacts bundle_appimage_only ["bundle"] "1.2.0"
  = Ok artifacts_appimage_only
  /\ dict_get "linux" artifacts_appimage_only
     = Some (record_of "1.2.0" "airdb_1.2.0_amd64.AppImage" (repeat x61 1000))
  /\ exists url sha size nm,
       record_of "1.2.0" "airdb_1.2.0_amd64.AppImage" (repeat x61 1000)
       = PDict [ ("url", PStr url); ("sha256", PStr sha);
                 ("size", PInt size); ("filename", PStr nm) ]
       /\ String.length sha = 64%nat
       /\ forallb is_hex_lower (list_ascii_of_string sha) = true
       /\ (0 <= size)%Z.
Proof.
  assert (H : find_artifacts bundle_appimage_only ["bundle"] "1.2.0"
              = Ok artifacts_appimage_only) by (vm_compute; reflexivity).
  split; [exact H|]. split; [reflexivity|].
  exact (record_shape _ _ _ _ "linux" _ H eq_refl).
Defined.

(** X2. When the Locator returns, a platform's key holds the record of
    the first accepted match of the last of its patterns that has one, and
    the key is absent when no pattern of the platform has an accepted
    match. *)
Theorem entry_is_last_accepted_match fs dir version artifacts pf :
  find_artifacts fs dir version = Ok artifacts ->
  In pf platforms ->
  match chosen pf fs dir version with
  | Some file =>
      exists data,
        loc_node file = File data
        /\ dict_get (key pf) artifacts
           = Some (record_of version (name file) data)
  | None => dict_get (key pf) artifacts = None
  end.
Proof. intros Hfind Hpf. exact (find_artifacts_holds _ _ _ _ _ Hfind Hpf). Qed.

Lemma entry_is_last_accepted_match_witness :
  find_artifacts bundle_appimage_only ["bundle"] "1.2.0"
  = Ok artifacts_appimage_only
  /\ In linux platforms
  /\ match chosen linux bundle_appimage_only ["bundle"] "1.2.0" with
     | Some file =>
         exists data,
           loc_node file = File data
           /\ dict_get (key linux) artifacts_appimage_only
              = Some (record_of "1.2.0" (name file) data)
     | None => dict_get (key linux) artifacts_appimage_only = None
     end.
Proof.
  assert (H : find_artifacts bundle_appimage_only ["bundle"] "1.2.0"
              = Ok artifacts_appimage_only) by (vm_compute; reflexivity).
  assert (Hw : In linux platforms) by (now left).
  split; [exact H|]. split; [exact Hw|].
  exact (entry_is_last_accepted_match _ _ _ _ _ H Hw).
Defined.

(** X3. Every entry was made from a file whose suffix passed the check of
    its platform: [.AppImage] under linux, [.exe] or [.msi] under windows,
    [.dmg] under macos. *)
Theorem extension_guard fs dir version artifacts k record :
  find_artifacts fs dir version = Ok artifacts ->
  dict_get k artifacts = Some record ->
  exists nm,
    item "filename" record = Some (PStr nm)
    /\ ((k = "linux" /\ suffix nm = ".AppImage")
        \/ (k = "windows" /\ (suffix nm = ".exe" \/ suffix nm = ".msi"))
        \/ (k = "macos" /\ suffix nm = ".dmg")).
Proof.
  intros Hfind Hget. apply dict_get_In in Hget.
  destruct (find_artifacts_entries _ _ _ _ Hfind k record Hget)
    as (pf & file & Hpf & -> & (_ & _ & _ & _ & _ & Hacc) & Hrec).
  apply artifact_record_inv in Hrec as (data & _ & ->).
  exists (name file). split; [reflexivity|].
  destruct Hpf as [<-|[<-|[<-|[]]]]; cbn in Hacc |- *.
  - left. split; [reflexivity|]. now apply String.eqb_eq.
  - right; left. split; [reflexivity|].
    rewrite orb_false_r in Hacc. apply orb_prop in Hacc as [H|H];
      apply String.eqb_eq in H; auto.
  - right; right. split; [reflexivity|]. now apply String.eqb_eq.
Qed.

Lemma extension_guard_witness :
  find_artifacts bundle_with_pairs ["bundle"] "1.2.0" = Ok artifacts_with_pairs
  /\ dict_get "windows" artifacts_with_pairs
     = Some (record_of "1.2.0" "airdb_1.2.0_x64_en-US.msi" (bytes_of "package"))
  /\ exists nm,
       item "filename"
         (record_of "1.2.0" "airdb_1.2.0_x64_en-US.msi" (bytes_of "package"))
       = Some (PStr nm)
       /\ (("windows" = "linux" /\ suffix nm = ".AppImage")
           \/ ("windows" = "windows"
               /\ (suffix nm = ".exe" \/ suffix nm = ".msi"))
           \/ ("windows" = "macos" /\ suffix nm = ".dmg")).
Proof.
  assert (H : find_artifacts bundle_with_pairs ["bundle"] "1.2.0"
              = Ok artifacts_with_pairs) by (vm_compute; reflexivity).
  split; [exact H|]. split; [reflexivity|].
  exact (extension_guard _ _ _ _ "windows" _ H eq_refl).
Defined.

(** X4. The mapping has at most one entry for each platform, and its keys
    come in the order linux, windows, macos. *)
Theorem keys_in_platform_order fs dir version artifacts :
  find_artifacts fs dir version = Ok artifacts ->
  In (dict_keys artifacts) key_orders.
Proof.
  intros Hfind.
  destruct (find_artifacts_steps _ _ _ _ Hfind) as (a1 & a2 & H1 & H2 & H3).
  apply scan_patterns_keys in H1, H2, H3. cbn [key linux windows macos] in *.
  destruct H1 as [H1|[_ H1]]; rewrite H1 in H2; cbn in H2;
    destruct H2 as [H2|[_ H2]]; rewrite H2 in H3; cbn in H3;
    destruct H3 as [H3|[_ H3]]; rewrite H3; cbn; tauto.
Qed.

Lemma keys_in_platform_order_witness :
  find_artifacts bundle_with_pairs ["bundle"] "1.2.0" = Ok artifacts_with_pairs
  /\ In (dict_keys artifacts_with_pairs) key_orders.
Proof.
  assert (H : find_artifacts bundle_with_pairs ["bundle"] "1.2.0"
              = Ok artifacts_with_pairs) by (vm_compute; reflexivity).
  split; [exact H | exact (keys_in_platform_order _ _ _ _ H)].
Defined.

(** X6. A directory that bears the name of an artifact and passes the
    suffix check is opened like a file: the Locator raises, whatever else
    the bundle holds, and so does [generate_manifest] on that bundle. *)
Theorem directory_match_raises fs dir version pf pattern files file :
  In pf platforms ->
  In pattern (patterns pf version) ->
  glob fs dir pattern = Ok files ->
  first_accepted pf files = Some file ->
  is_dir (loc_node file) = true ->
  (exists e, find_artifacts fs dir version = Raise e)
  /\ (exists_ fs dir = true ->
      forall now channel min_version changelog,
      exists e,
        generate_manifest now fs version channel min_version changelog
                          (Some dir) = Raise e).
Proof.
  intros Hpf Hpat Hglob Hfirst Hdir.
  assert (Hraise : exists e, find_artifacts fs dir version = Raise e).
  { destruct (find_artifacts fs dir version) as [arts|e] eqn:Hfind;
      [|now exists e].
    exfalso.
    destruct (proj1 (find_artifacts_ok_iff fs dir version)
                (ex_intro _ arts Hfind) pf Hpf pattern Hpat)
      as (files' & Hg & Hf).
    rewrite Hglob in Hg. injection Hg as <-.
    rewrite Hfirst in Hf. congruence. }
  split; [exact Hraise|].
  intros Hex now channel min_version changelog.
  destruct Hraise as [e He]. exists e.
  unfold generate_manifest. now rewrite Hex, He.
Qed.

Lemma directory_match_raises_witness :
  In windows platforms
  /\ In "**/airdb_1.2.0_x64-setup.exe" (patterns windows "1.2.0")
  /\ glob bundle_with_directory ["bundle"] "**/airdb_1.2.0_x64-setup.exe"
     = Ok [directory_match]
  /\ first_accepted windows [directory_match] = Some directory_match
  /\ is_dir (loc_node directory_match) = true
  /\ (exists e,
        find_artifacts bundle_with_directory ["bundle"] "1.2.0" = Raise e)
  /\ (exists_ bundle_with_directory ["bundle"] = true ->
      forall now channel min_version changelog,
      exists e,
        generate_manifest now bundle_with_directory "1.2.0" channel
                          min_version changelog (Some ["bundle"]) = Raise e).
Proof.
  assert (H1 : In windows platforms) by (right; now left).
  assert (H2 : In "**/airdb_1.2.0_x64-setup.exe" (patterns windows "1.2.0"))
    by (now left).
  assert (H3 : glob bundle_with_directory ["bundle"]
                    "**/airdb_1.2.0_x64-setup.exe" = Ok [directory_match])
    by (vm_compute; reflexivity).
  assert (H4 : first_accepted windows [directory_match] = Some directory_match)
    by (vm_compute; reflexivity).
  assert (H5 : is_dir (loc_node directory_match) = true) by reflexivity.
  repeat (split; [assumption|]).
  exact (directory_match_raises _ _ _ _ _ _ _ H1 H2 H3 H4 H5).
Defined.

(* ================================================================== *)
(** ** Further properties: the Assembler *)
(* ================================================================== *)

(** X8. The file system and the bundle directory reach the artifacts
    field only: two manifests made at the same time from the same version,
    channel, minimum version and changelog agree on every other field. *)
Theorem bundle_affects_only_artifacts now version channel min_version
        changelog fs1 fs2 bundle_dir1 bundle_dir2 m1 m2 :
  generate_manifest now fs1 version channel min_version changelog bundle_dir1
  = Ok m1 ->
  generate_manifest now fs2 version channel min_version changelog bundle_dir2
  = Ok m2 ->
  map (fun k => dict_get k m1) scalar_keys
  = map (fun k => dict_get k m2) scalar_keys.
Proof.
  intros H1 H2.
  apply generate_manifest_inv in H1 as (a1 & -> & _).
  apply generate_manifest_inv in H2 as (a2 & -> & _).
  reflexivity.
Qed.

Lemma bundle_affects_only_artifacts_witness :
  generate_manifest some_day bundle_with_pairs "1.2.0" None None None
                    (Some ["bundle"]) = Ok manifest_with_pairs
  /\ generate_manifest some_day bundle_deb_only "1.2.0" None None None None
     = Ok (base_manifest some_day "1.2.0" None None None)
  /\ map (fun k => dict_get k manifest_with_pairs) scalar_keys
     = map (fun k => dict_get k (base_manifest some_day "1.2.0" None None None))
           scalar_keys.
Proof.
  assert (H1 : generate_manifest some_day bundle_with_pairs "1.2.0" None None
                 None (Some ["bundle"]) = Ok manifest_with_pairs)
    by (vm_compute; reflexivity).
  assert (H2 : generate_manifest some_day bundle_deb_only "1.2.0" None None
                 None None = Ok (base_manifest some_day "1.2.0" None None None))
    by reflexivity.
  split; [exact H1|]. split; [exact H2|].
  exact (bundle_affects_only_artifacts _ _ _ _ _ _ _ _ _ _ _ H1 H2).
Defined.

(* ================================================================== *)
(** ** Further properties: plain versions *)
(* ================================================================== *)

(** X9. For a version without [/], [*], [?] and [[], the filename of an
    entry is the name its platform expects: the AppImage name under linux,
    the setup or the msi name under windows, the x64 or the aarch64 image
    name under macos. *)
Theorem plain_version_filenames fs dir version artifacts k record :
  plain version = true ->
  find_artifacts fs dir version = Ok artifacts ->
  dict_get k artifacts = Some record ->
  exists nm,
    item "filename" record = Some (PStr nm)
    /\ In nm (accepted_names k version).
Proof.
  intros Hv Hfind Hget. apply dict_get_In in Hget.
  destruct (find_artifacts_entries _ _ _ _ Hfind k record Hget)
    as (pf & file & Hpf & -> & Hloc & Hrec).
  apply artifact_record_inv in Hrec as (data & _ & ->).
  exists (name file). split; [reflexivity|].
  now apply located_plain_name with (fs := fs) (dir := dir).
Qed.

Lemma plain_version_filenames_witness :
  plain "1.2.0" = true
  /\ find_artifacts bundle_with_pairs ["bundle"] "1.2.0"
     = Ok artifacts_with_pairs
  /\ dict_get "macos" artifacts_with_pairs
     = Some (record_of "1.2.0" "airdb_1.2.0_aarch64.dmg" (bytes_of "arm"))
  /\ exists nm,
       item "filename"
         (record_of "1.2.0" "airdb_1.2.0_aarch64.dmg" (bytes_of "arm"))
       = Some (PStr nm)
       /\ In nm (accepted_names "macos" "1.2.0").
Proof.
  assert (H : find_artifacts bundle_with_pairs ["bundle"] "1.2.0"
              = Ok artifacts_with_pairs) by (vm_compute; reflexivity).
  split; [reflexivity|]. split; [exact H|]. split; [reflexivity|].
  exact (plain_version_filenames bundle_with_pairs ["bundle"] "1.2.0"
           artifacts_with_pairs "macos" _ eq_refl H eq_refl).
Defined.

(** X10. For a plain version, a file that bears a name its platform
    accepts, in the bundle directory or in a directory any number of
    levels below it, gives that platform an entry whenever the Locator
    returns. *)
Theorem nested_artifact_is_found fs dir sub version k nm d l f artifacts :
  plain version = true ->
  In nm (accepted_names k version) ->
  resolve fs dir = Some d ->
  forallb normal sub = true ->
  walk d sub = Some l ->
  child nm l = Some f ->
  find_artifacts fs dir version = Ok artifacts ->
  has_key k artifacts.
Proof.
  intros Hv Hnm Hres Hn Hw Hc Hfind.
  assert (Hfound : forall pf tail,
             In pf platforms -> k = key pf ->
             plain tail = true ->
             nm = "airdb_" ++ version ++ tail ->
             In ("**/airdb_" ++ version ++ tail) (patterns pf version) ->
             accepts pf (suffix nm) = true ->
             has_key k artifacts).
  { intros pf tail Hpf -> Ht Hname Hpat Hacc.
    destruct (plain_name_found fs dir sub nm d l f) as (files & y & Hg & Hy & Hny);
      try assumption;
      try (rewrite Hname; try discriminate; now apply artifact_name_plain).
    apply (located_platform_has_entry fs dir version artifacts pf y Hpf);
      [|exact Hfind].
    exists ("**/" ++ nm), files. rewrite Hny. repeat split; auto.
    now rewrite Hname. }
  unfold accepted_names in Hnm.
  destruct (String.eqb_spec k "linux") as [->|_].
  { destruct Hnm as [<-|[]].
    apply (Hfound linux "_amd64.AppImage"); auto; try (now left).
    change ("airdb_" ++ version ++ "_amd64.AppImage")
      with ("airdb_" ++ version ++ "_amd64" ++ "." ++ "AppImage").
    now rewrite artifact_name_suffix. }
  destruct (String.eqb_spec k "windows") as [->|_].
  { destruct Hnm as [<-|[<-|[]]].
    - apply (Hfound windows "_x64-setup.exe"); auto;
        try (right; now left); try (now left).
      change ("airdb_" ++ version ++ "_x64-setup.exe")
        with ("airdb_" ++ version ++ "_x64-setup" ++ "." ++ "exe").
      now rewrite artifact_name_suffix.
    - apply (Hfound windows "_x64_en-US.msi"); auto;
        try (right; now left).
      change ("airdb_" ++ version ++ "_x64_en-US.msi")
        with ("airdb_" ++ version ++ "_x64_en-US" ++ "." ++ "msi").
      now rewrite artifact_name_suffix. }
  destruct (String.eqb_spec k "macos") as [->|_]; [|destruct Hnm].
  destruct Hnm as [<-|[<-|[]]].
  - apply (Hfound macos "_x64.dmg"); auto;
      try (right; right; now left); try (now left).
    change ("airdb_" ++ version ++ "_x64.dmg")
      with ("airdb_" ++ version ++ "_x64" ++ "." ++ "dmg").
    now rewrite artifact_name_suffix.
  - apply (Hfound macos "_aarch64.dmg"); auto;
      try (right; right; now left); try (right; now left).
    change ("airdb_" ++ version ++ "_aarch64.dmg")
      with ("airdb_" ++ version ++ "_aarch64" ++ "." ++ "dmg").
    now rewrite artifact_name_suffix.
Qed.

Lemma nested_artifact_is_found_witness :
  plain "1.2.0" = true
  /\ In "airdb_1.2.0_x64-setup.exe" (accepted_names "windows" "1.2.0")
  /\ resolve bundle_with_pairs ["bundle"]
     = Some (place bundle_with_pairs ["bundle"])
  /\ forallb normal ["nsis"] = true
  /\ walk (place bundle_with_pairs ["bundle"]) ["nsis"]
     = Some (place bundle_with_pairs ["bundle"; "nsis"])
  /\ child "airdb_1.2.0_x64-setup.exe"
           (place bundle_with_pairs ["bundle"; "nsis"])
     = Some (place bundle_with_pairs
                   ["bundle"; "nsis"; "airdb_1.2.0_x64-setup.exe"])
  /\ find_artifacts bundle_with_pairs ["bundle"] "1.2.0"
     = Ok artifacts_with_pairs
  /\ has_key "windows" artifacts_with_pairs.
Proof.
  assert (H1 : plain "1.2.0" = true) by reflexivity.
  assert (H2 : In "airdb_1.2.0_x64-setup.exe"
                  (accepted_names "windows" "1.2.0")) by (now left).
  assert (H3 : resolve bundle_with_pairs ["bundle"]
               = Some (place bundle_with_pairs ["bundle"])) by reflexivity.
  assert (H4 : forallb normal ["nsis"] = true) by reflexivity.
  assert (H5 : walk (place bundle_with_pairs ["bundle"]) ["nsis"]
               = Some (place bundle_with_pairs ["bundle"; "nsis"]))
    by reflexivity.
  assert (H6 : child "airdb_1.2.0_x64-setup.exe"
                     (place bundle_with_pairs ["bundle"; "nsis"])
               = Some (place bundle_with_pairs
                         ["bundle"; "nsis"; "airdb_1.2.0_x64-setup.exe"]))
    by reflexivity.
  assert (H7 : find_artifacts bundle_with_pairs ["bundle"] "1.2.0"
               = Ok artifacts_with_pairs) by (vm_compute; reflexivity).
  repeat (split; [assumption|]).
  exact (nested_artifact_is_found _ _ _ _ _ _ _ _ _ _ H1 H2 H3 H4 H5 H6 H7).
Defined.

(* ================================================================== *)
(** ** Further properties: the command line *)
(* ================================================================== *)



(** X12. In a manifest that is written, what no word of the command line
    selects has its default: channel ["stable"], min_supported_version
    ["0.1.0"], an empty changelog, an empty artifacts mapping, and the
    output file [update-manifest.json]. *)
Theorem absent_options_keep_defaults now fs cwd argv output m :
  main now fs cwd argv = Written output m ->
  (forallb (fun w => negb (names OChannel w)) argv = true ->
   dict_get "channel" m = Some (PStr "stable"))
  /\ (forallb (fun w => negb (names OMinVersion w)) argv = true ->
      dict_get "min_supported_version" m = Some (PStr "0.1.0"))
  /\ (forallb (fun w => negb (names OChangelog w)) argv = true ->
      dict_get "changelog" m = Some (PList []))
  /\ (forallb (fun w => negb (names OBundleDir w)) argv = true ->
      dict_get "artifacts" m = Some (PDict []))
  /\ (forallb (fun w => negb (names OOutput w)) argv = true ->
      output = "update-manifest.json").
Proof.
  unfold main. intros H.
  destruct (parse_args argv) as [s|v c mv cl bd out] eqn:Hp; [discriminate|].
  destruct (generate_manifest _ _ _ _ _ _ _) as [m'|e] eqn:Hg; [|discriminate].
  injection H as <- <-.
  assert (Hkeep : forall o (proj : namespace -> Prop),
             (forall o' vals ns, opt_eqb o o' = false ->
                                 proj ns -> proj (store o' vals ns)) ->
             proj initial_namespace ->
             forallb (fun w => negb (names o w)) argv = true ->
             proj (Namespace (Some v) c mv cl bd out)).
  { intros o proj Hs Hi Ha.
    assert (Hk := parse_args_keeps o proj argv Hs Hi Ha).
    now rewrite Hp in Hk. }
  repeat split; intros Ha.
  - apply (Hkeep OChannel (fun ns => ns_channel ns = "stable")) in Ha;
      [| intros o' vals ns Ho; rewrite <- (store_other OChannel o' vals ns Ho);
         auto | reflexivity].
    cbn in Ha. subst c.
    apply generate_manifest_inv in Hg as (a & -> & _). reflexivity.
  - apply (Hkeep OMinVersion (fun ns => ns_min_version ns = "0.1.0")) in Ha;
      [| intros o' vals ns Ho; rewrite <- (store_other OMinVersion o' vals ns Ho);
         auto | reflexivity].
    cbn in Ha. subst mv.
    apply generate_manifest_inv in Hg as (a & -> & _). reflexivity.
  - apply (Hkeep OChangelog (fun ns => ns_changelog ns = None)) in Ha;
      [| intros o' vals ns Ho; rewrite <- (store_other OChangelog o' vals ns Ho);
         auto | reflexivity].
    cbn in Ha. subst cl.
    apply generate_manifest_inv in Hg as (a & -> & _). reflexivity.
  - apply (Hkeep OBundleDir (fun ns => ns_bundle_dir ns = None)) in Ha;
      [| intros o' vals ns Ho; rewrite <- (store_other OBundleDir o' vals ns Ho);
         auto | reflexivity].
    cbn in Ha. subst bd. cbn in Hg. injection Hg as <-. reflexivity.
  - apply (Hkeep OOutput (fun ns => ns_output ns = "update-manifest.json")) in Ha;
      [| intros o' vals ns Ho; rewrite <- (store_other OOutput o' vals ns Ho);
         auto | reflexivity].
    exact Ha.
Qed.

Lemma absent_options_keep_defaults_witness :
  main some_day bundle_with_pairs [] ["--version"; "1.2.0"; "--channel"; "beta"]
  = Written "update-manifest.json"
      (base_manifest some_day "1.2.0" (Some "beta") None None)
  /\ forallb (fun w => negb (names OBundleDir w))
             ["--version"; "1.2.0"; "--channel"; "beta"] = true
  /\ dict_get "artifacts"
       (base_manifest some_day "1.2.0" (Some "beta") None None)
     = Some (PDict []).
Proof.
  assert (H : main some_day bundle_with_pairs []
                   ["--version"; "1.2.0"; "--channel"; "beta"]
              = Written "update-manifest.json"
                  (base_manifest some_day "1.2.0" (Some "beta") None None))
    by reflexivity.
  split; [exact H|]. split; [reflexivity|].
  exact (proj1 (proj2 (proj2 (proj2
           (absent_options_keep_defaults _ _ _ _ _ _ H)))) eq_refl).
Defined.

(** X13. When the run ends in the parser, the exit status is 2, or it is
    0 and some word of the command line asks for help. *)
Theorem parser_exit_status now fs cwd argv status :
  main now fs cwd argv = Exited status ->
  status = 2%nat \/ (status = 0%nat /\ existsb names_help argv = true).
Proof.
  unfold main.
  destruct (parse_args argv) as [s|v c mv cl bd out] eqn:Hp.
  - intros [= <-]. now apply parse_args_exit.
  - destruct (generate_manifest _ _ _ _ _ _ _); discriminate.
Qed.

Lemma parser_exit_status_witness :
  main some_day bundle_with_pairs [] ["--version"; "1.2.0"; "--help"]
  = Exited 0
  /\ (0%nat = 2%nat
      \/ (0%nat = 0%nat
          /\ existsb names_help ["--version"; "1.2.0"; "--help"] = true)).
Proof.
  assert (H : main some_day bundle_with_pairs []
                   ["--version"; "1.2.0"; "--help"] = Exited 0) by reflexivity.
  split; [exact H | exact (parser_exit_status _ _ _ _ _ H)].
Defined.

(** X15. For a clock reading with a four-digit year, the release_date of
    a manifest is four digits, a hyphen, two digits, a hyphen and two
    digits. *)
Theorem release_date_format now fs version channel min_version changelog
        bundle_dir m :
  (1000 <= year now < 10000)%nat ->
  (month now < 100)%nat -> (day now < 100)%nat ->
  generate_manifest now fs version channel min_version changelog bundle_dir
  = Ok m ->
  exists y mo d,
    dict_get "release_date" m = Some (PStr (y ++ "-" ++ mo ++ "-" ++ d))
    /\ digits 4 y = true /\ digits 2 mo = true /\ digits 2 d = true.
Proof.
  intros Hy Hm Hd H. apply generate_manifest_inv in H as (a & -> & _).
  exists (padded 4 (year now)), (padded 2 (month now)), (padded 2 (day now)).
  split; [reflexivity|].
  repeat split; [apply padded_four | apply padded_two | apply padded_two]; lia.
Qed.

Lemma release_date_format_witness :
  (1000 <= year some_day < 10000)%nat
  /\ (month some_day < 100)%nat /\ (day some_day < 100)%nat
  /\ generate_manifest some_day bundle_with_pairs "1.2.0" None None None None
     = Ok (base_manifest some_day "1.2.0" None None None)
  /\ exists y mo d,
       dict_get "release_date" (base_manifest some_day "1.2.0" None None None)
       = Some (PStr (y ++ "-" ++ mo ++ "-" ++ d))
       /\ digits 4 y = true /\ digits 2 mo = true /\ digits 2 d = true.
Proof.
  assert (H1 : (1000 <= year some_day < 10000)%nat) by (cbn; lia).
  assert (H2 : (month some_day < 100)%nat) by (cbn; lia).
  assert (H3 : (day some_day < 100)%nat) by (cbn; lia).
  assert (H4 : generate_manifest some_day bundle_with_pairs "1.2.0" None None
                 None None
               = Ok (base_manifest some_day "1.2.0" None None None))
    by reflexivity.
  repeat (split; [assumption|]).
  exact (release_date_format _ _ _ _ _ _ _ _ H1 H2 H3 H4).
Defined.

(** X16. When the bundle path leads to nothing or to something that is
    not a directory, the Locator lists nothing: it returns the empty
    mapping, or raises [ValueError] when the version makes a pattern
    invalid; for a plain version it returns the empty mapping. *)
Theorem bundle_not_a_directory fs dir version :
  match resolve fs dir with
  | Some d => is_dir (loc_node d) = false
  | None => True
  end ->
  (find_artifacts fs dir version = Ok []
   \/ find_artifacts fs dir version = Raise ValueError)
  /\ (plain version = true -> find_artifacts fs dir version = Ok []).
Proof.
  intros H.
  assert (Hstep : forall pf a,
             scan_platform pf version fs dir a = Ok a
             \/ scan_platform pf version fs dir a = Raise ValueError)
    by (intros pf a; now apply scan_patterns_no_directory).
  assert (Hall : find_artifacts fs dir version = Ok []
                 \/ find_artifacts fs dir version = Raise ValueError).
  { unfold find_artifacts.
    destruct (Hstep linux []) as [-> | ->]; cbn [bind]; [|now right].
    destruct (Hstep windows []) as [-> | ->]; cbn [bind]; [|now right].
    apply Hstep. }
  split; [exact Hall|].
  intros Hv. destruct Hall as [?|Hraise]; [assumption|]. exfalso.
  assert (Hok : forall pf, In pf platforms -> readable pf fs dir version).
  { intros pf Hpf pattern Hpat.
    assert (Hg : exists tail, plain tail = true
                   /\ pattern = "**/" ++ ("airdb_" ++ version ++ tail)).
    { destruct Hpf as [<-|[<-|[<-|[]]]]; cbn in Hpat;
        destruct Hpat as [<-|[<-|[]]]; eexists; split;
        try reflexivity; reflexivity. }
    destruct Hg as (tail & Ht & ->).
    eexists. split.
    - apply glob_plain; try discriminate. now apply artifact_name_plain.
    - destruct (resolve fs dir) as [d|]; [|exact I]. rewrite H. exact I. }
  apply (proj2 (find_artifacts_ok_iff fs dir version)) in Hok as [arts Harts].
  congruence.
Qed.

Lemma bundle_not_a_directory_witness :
  match resolve bundle_is_a_file ["bundle"] with
  | Some d => is_dir (loc_node d) = false
  | None => True
  end
  /\ (find_artifacts bundle_is_a_file ["bundle"] "1.2.0" = Ok []
      \/ find_artifacts bundle_is_a_file ["bundle"] "1.2.0" = Raise ValueError)
  /\ (plain "1.2.0" = true ->
      find_artifacts bundle_is_a_file ["bundle"] "1.2.0" = Ok []).
Proof.
  assert (H : match resolve bundle_is_a_file ["bundle"] with
              | Some d => is_dir (loc_node d) = false
              | None => True
              end) by reflexivity.
  split; [exact H|].
  exact (bundle_not_a_directory bundle_is_a_file ["bundle"] "1.2.0" H).
Defined.
